(** * pyroscope-nodejs: the profiling agent of [src/index.ts]

    A shallow embedding of the module: its global configuration, the tag
    model, the upload pipeline and the two profiling loops, run on a small
    model of the Node.js event loop.  External capabilities ([pprof],
    [axios], timers) are the environment: every asynchronous result reaches
    the module as an [Event], and a call into them that returns at once is
    taken to return, but for [pprof.heap.start], which throws when the heap
    sampler is already started.  [writeProfileAsync] is called from nowhere and is left
    out; the preload hook at the end of the file is one more [init()] call. *)

From Stdlib Require Import List String Ascii Bool Arith NArith Lia DecimalString DecimalN.
Import ListNotations.
Open Scope string_scope.
Open Scope list_scope.

(** ** JavaScript values the module handles *)

(** A [Buffer] of bytes, as [pprof.encode] resolves with. *)
Definition Buffer := list Byte.byte.

Definition byteLength (buf : Buffer) : nat := List.length buf.

(** How a promise settles. *)
Inductive Settled (A E : Type) : Type :=
| Fulfilled (a : A)
| Rejected (e : E).
Arguments Fulfilled {A E} a.
Arguments Rejected {A E} e.

(** [`${n}`] for a number that is a natural. *)
Definition string_of_number (n : N) : string :=
  NilEmpty.string_of_uint (N.to_uint n).

(** [`${x}`] where [x] may be [undefined]. *)
Definition template_of (x : option string) : string :=
  match x with
  | Some s => s
  | None => "undefined"
  end.

(** [x || d] on a string that may be absent: the empty string is falsy. *)
Definition or_default (x : option string) (d : string) : string :=
  match x with
  | Some "" => d
  | Some s => s
  | None => d
  end.

(** [Array.prototype.join], which the template literal applies (with a
    comma) to an array of strings. *)
Definition join (sep : string) (xs : list string) : string :=
  String.concat sep xs.

(** ** Tag model *)

Module Tags.

(** [type TagList = Record<string, any>]: the own enumerable properties of
    the object, in the order [Object.keys] enumerates them.  Values are
    the strings the spec's data model gives them. *)
Definition TagList := list (string * string).

(** An object holds one value per key. *)
Definition wf (tags : TagList) : Prop := NoDup (map fst tags).

(** [Object.keys(tags)] *)
Definition keys (tags : TagList) : list string := map fst tags.

(** [tags[t]]; [undefined] for a key the object lacks. *)
Fixpoint get (tags : TagList) (t : string) : option string :=
  match tags with
  | [] => None
  | (k, v) :: rest => if String.eqb k t then Some v else get rest t
  end.

(** [perftools.profiles.Label], the two fields [create] is given. *)
Record Label := { key : string; str : option string }.

(** [[
    const tagListToLabels = (tags: TagList) =>
      Object.keys(tags).map((t: string) =>
        perftools.perftools.profiles.Label.create({ key: t as any, str: tags[t] }))
    ]] *)
Definition tagListToLabels (tags : TagList) : list Label :=
  map (fun t => {| key := t; str := get tags t |}) (keys tags).

(** The array [tagList] of [uploadProfile]:
    [Object.keys(config.tags).map((t) => `${t}=${config.tags[t]}`)] *)
Definition tagList (tags : TagList) : list string :=
  map (fun t => (t ++ "=" ++ template_of (get tags t))%string) (keys tags).

(** The part [{${tagList}}] of the upload URL. *)
Definition fragment (tags : TagList) : string :=
  ("{" ++ join "," (tagList tags) ++ "}")%string.

(** One entry of the mapping, as the spec writes it. *)
Definition pair_string (kv : string * string) : string :=
  (fst kv ++ "=" ++ snd kv)%string.

End Tags.

Export Tags(TagList).

(** ** External objects *)

(** A profile snapshot: opaque to the module, which only passes it on. *)
Inductive Profile : Type := ProfileObject (id : nat).

(** A source mapper built by [pprof.SourceMapper.create]: opaque as well. *)
Inductive SourceMapper : Type := SourceMapperObject (id : nat).

(** A directory given to [pprof.SourceMapper.create]. *)
Inductive SearchDir : Type :=
| Dir (path : string)
| ProcessCwd.

(** The fields of an [AxiosError] that [handleError] reads. *)
Record AxiosResponse := { status : nat; data : string }.

Record AxiosError := {
  response : option AxiosResponse;
  request : bool;
  message : string }.

(** The options object of [pprof.time.profile]. *)
Record TimeProfileOptions := {
  lineNumbers : bool;
  sourceMapper : option SourceMapper;
  durationMillis : N;
  intervalMicros : N }.

(** The one field appended to the [FormData] of an upload. *)
Record FormData := {
  fieldName : string;
  fieldValue : Buffer;
  knownLength : nat;
  contentType : string;
  filename : string }.

(** ** Configuration *)

(** [interface PyroscopeConfig].  [server] is optional here because a
    JavaScript caller may leave it out; [init] provides for that. *)
Record PyroscopeConfig := {
  server : option string;
  name : string;
  sourceMapPath : option (list string);
  autoStart : bool;
  sm : option SourceMapper;
  tags : TagList }.

Definition INTERVAL : N := 10000.
Definition SAMPLERATE : N := 100.
Definition DEFAULT_SERVER : string := "http://localhost:4040".

(** The argument of a call whose parameter has a default value. *)
Inductive Arg (A : Type) : Type :=
| Omitted
| Null
| Given (a : A).
Arguments Omitted {A}.
Arguments Null {A}.
Arguments Given {A} a.

(** The default value of [init]'s parameter [c]. *)
Definition init_default : PyroscopeConfig :=
  {| server := Some DEFAULT_SERVER;
     name := "nodejs";
     sourceMapPath := None;
     autoStart := true;
     sm := None;
     tags := [] |}.

(** The parameter after the default is applied, [None] when it is falsy. *)
Definition truthy_param {A : Type} (dflt : A) (a : Arg A) : option A :=
  match a with
  | Omitted => Some dflt
  | Null => None
  | Given c => Some c
  end.

(** ** The event loop and what it observes *)

(** Who awaits an [uploadProfile] call. *)
Inductive Origin : Type := CpuRound | HeapTick.

(** What a pending [pprof.SourceMapper.create] is for. *)
Inductive MapperUse : Type := ForConfig | ForHeap.

(** A promise that rejects with nobody handling it inside the module. *)
Inductive Chain : Type :=
| InitSourceMapper
| StartHeapProfilingCall
| CpuRoundChain
| HeapTickCallback.

(** One observable action.  [loop] names the [profilingRound] closure of
    one [startCpuProfiling] call; the other numbers name promises and
    timers. *)
Inductive Obs : Type :=
| Log (args : list string)
| TimeProfile (loop cid : nat) (opts : TimeProfileOptions)
| TimeProfileSettled (loop cid : nat) (fulfilled : bool)
| SetImmediate (loop : nat)
| Encode (uid : nat) (profile : Profile)
| Post (rid : nat) (url : string) (form : FormData)
| CreateSourceMapper (mid : nat) (dirs : list SearchDir)
| HeapStart (intervalBytes stackDepth : N)
| HeapProfile (mapper : SourceMapper) (profile : Profile)
| SetInterval (tid : nat) (ms : N)
| ClearInterval (tid : nat)
| Rejection (chain : Chain).

(** The module's globals, the pending work of the event loop, and the
    history of observable actions (oldest first). *)
Record State := {
  config : PyroscopeConfig;
  heapProfilingTimer : option nat;
  isCpuProfilingRunning : bool;
  fresh : nat;
  captures : list (nat * nat);
  immediates : list nat;
  encodes : list (nat * (Origin * Profile));
  posts : list (nat * Origin);
  mappers : list (nat * MapperUse);
  intervals : list (nat * SourceMapper);
  trace : list Obs }.

(** The module as loaded. *)
Definition initial : State :=
  {| config := {| server := Some DEFAULT_SERVER;
                  name := "nodejs";
                  sourceMapPath := None;
                  autoStart := true;
                  sm := None;
                  tags := [] |};
     heapProfilingTimer := None;
     isCpuProfilingRunning := false;
     fresh := 0;
     captures := [];
     immediates := [];
     encodes := [];
     posts := [];
     mappers := [];
     intervals := [];
     trace := [] |}.

(** Pending promises and timers are found by their number. *)
Fixpoint lookup {A : Type} (i : nat) (l : list (nat * A)) : option A :=
  match l with
  | [] => None
  | (j, a) :: rest => if Nat.eqb j i then Some a else lookup i rest
  end.

Definition remove {A : Type} (i : nat) (l : list (nat * A)) : list (nat * A) :=
  filter (fun x => negb (Nat.eqb (fst x) i)) l.

(** ** Stateful code: a state monad over [State] *)

Definition M (A : Type) : Type := State -> A * State.

Definition ret {A : Type} (a : A) : M A := fun s => (a, s).

Definition bind {A B : Type} (m : M A) (k : A -> M B) : M B :=
  fun s => k (fst (m s)) (snd (m s)).

Notation "x <- m ;; k" := (bind m (fun x => k))
  (at level 61, m at next level, right associativity).
Notation "m ;; k" := (bind m (fun _ => k))
  (at level 61, right associativity).

Definition gets {A : Type} (f : State -> A) : M A := fun s => (f s, s).

Definition modify (f : State -> State) : M unit := fun s => (tt, f s).

Definition when (b : bool) (m : M unit) : M unit :=
  if b then m else ret tt.

Definition set_config (f : PyroscopeConfig -> PyroscopeConfig) (s : State) : State :=
  {| config := f (config s);
     heapProfilingTimer := heapProfilingTimer s;
     isCpuProfilingRunning := isCpuProfilingRunning s;
     fresh := fresh s; captures := captures s; immediates := immediates s;
     encodes := encodes s; posts := posts s; mappers := mappers s;
     intervals := intervals s; trace := trace s |}.

Definition set_heapProfilingTimer (t : option nat) (s : State) : State :=
  {| config := config s;
     heapProfilingTimer := t;
     isCpuProfilingRunning := isCpuProfilingRunning s;
     fresh := fresh s; captures := captures s; immediates := immediates s;
     encodes := encodes s; posts := posts s; mappers := mappers s;
     intervals := intervals s; trace := trace s |}.

Definition set_isCpuProfilingRunning (b : bool) (s : State) : State :=
  {| config := config s;
     heapProfilingTimer := heapProfilingTimer s;
     isCpuProfilingRunning := b;
     fresh := fresh s; captures := captures s; immediates := immediates s;
     encodes := encodes s; posts := posts s; mappers := mappers s;
     intervals := intervals s; trace := trace s |}.

Definition set_fresh (n : nat) (s : State) : State :=
  {| config := config s;
     heapProfilingTimer := heapProfilingTimer s;
     isCpuProfilingRunning := isCpuProfilingRunning s;
     fresh := n; captures := captures s; immediates := immediates s;
     encodes := encodes s; posts := posts s; mappers := mappers s;
     intervals := intervals s; trace := trace s |}.

Definition set_captures (f : list (nat * nat) -> list (nat * nat)) (s : State) : State :=
  {| config := config s;
     heapProfilingTimer := heapProfilingTimer s;
     isCpuProfilingRunning := isCpuProfilingRunning s;
     fresh := fresh s; captures := f (captures s); immediates := immediates s;
     encodes := encodes s; posts := posts s; mappers := mappers s;
     intervals := intervals s; trace := trace s |}.

Definition set_immediates (f : list nat -> list nat) (s : State) : State :=
  {| config := config s;
     heapProfilingTimer := heapProfilingTimer s;
     isCpuProfilingRunning := isCpuProfilingRunning s;
     fresh := fresh s; captures := captures s; immediates := f (immediates s);
     encodes := encodes s; posts := posts s; mappers := mappers s;
     intervals := intervals s; trace := trace s |}.

Definition set_encodes
  (f : list (nat * (Origin * Profile)) -> list (nat * (Origin * Profile)))
  (s : State) : State :=
  {| config := config s;
     heapProfilingTimer := heapProfilingTimer s;
     isCpuProfilingRunning := isCpuProfilingRunning s;
     fresh := fresh s; captures := captures s; immediates := immediates s;
     encodes := f (encodes s); posts := posts s; mappers := mappers s;
     intervals := intervals s; trace := trace s |}.

Definition set_posts (f : list (nat * Origin) -> list (nat * Origin)) (s : State) : State :=
  {| config := config s;
     heapProfilingTimer := heapProfilingTimer s;
     isCpuProfilingRunning := isCpuProfilingRunning s;
     fresh := fresh s; captures := captures s; immediates := immediates s;
     encodes := encodes s; posts := f (posts s); mappers := mappers s;
     intervals := intervals s; trace := trace s |}.

Definition set_mappers (f : list (nat * MapperUse) -> list (nat * MapperUse)) (s : State) : State :=
  {| config := config s;
     heapProfilingTimer := heapProfilingTimer s;
     isCpuProfilingRunning := isCpuProfilingRunning s;
     fresh := fresh s; captures := captures s; immediates := immediates s;
     encodes := encodes s; posts := posts s; mappers := f (mappers s);
     intervals := intervals s; trace := trace s |}.

Definition set_intervals
  (f : list (nat * SourceMapper) -> list (nat * SourceMapper)) (s : State) : State :=
  {| config := config s;
     heapProfilingTimer := heapProfilingTimer s;
     isCpuProfilingRunning := isCpuProfilingRunning s;
     fresh := fresh s; captures := captures s; immediates := immediates s;
     encodes := encodes s; posts := posts s; mappers := mappers s;
     intervals := f (intervals s); trace := trace s |}.

Definition set_trace (f : list Obs -> list Obs) (s : State) : State :=
  {| config := config s;
     heapProfilingTimer := heapProfilingTimer s;
     isCpuProfilingRunning := isCpuProfilingRunning s;
     fresh := fresh s; captures := captures s; immediates := immediates s;
     encodes := encodes s; posts := posts s; mappers := mappers s;
     intervals := intervals s; trace := f (trace s) |}.

(** Assignments to the fields of the global [config]. *)
Definition with_server (v : option string) (c : PyroscopeConfig) : PyroscopeConfig :=
  {| server := v; name := name c; sourceMapPath := sourceMapPath c;
     autoStart := autoStart c; sm := sm c; tags := tags c |}.

Definition with_sourceMapPath (v : option (list string)) (c : PyroscopeConfig) : PyroscopeConfig :=
  {| server := server c; name := name c; sourceMapPath := v;
     autoStart := autoStart c; sm := sm c; tags := tags c |}.

Definition with_sm (v : option SourceMapper) (c : PyroscopeConfig) : PyroscopeConfig :=
  {| server := server c; name := name c; sourceMapPath := sourceMapPath c;
     autoStart := autoStart c; sm := v; tags := tags c |}.

Definition with_tags (v : TagList) (c : PyroscopeConfig) : PyroscopeConfig :=
  {| server := server c; name := name c; sourceMapPath := sourceMapPath c;
     autoStart := autoStart c; sm := sm c; tags := v |}.

(** An action is observed: it goes to the end of the history. *)
Definition emit (o : Obs) : M unit := modify (set_trace (fun t => t ++ [o])).

(** [log(...)] of the [debug] package. *)
Definition log (args : list string) : M unit := emit (Log args).

(** A new number for a promise, timer or closure. *)
Definition gensym : M nat :=
  fun s => (fresh s, set_fresh (S (fresh s)) s).

(** ** The module's functions *)

(** [setImmediate(profilingRound)] for the closure of loop [l]. *)
Definition setImmediate (l : nat) : M unit :=
  emit (SetImmediate l) ;;
  modify (set_immediates (fun q => q ++ [l])).

(** [pprof.SourceMapper.create(dirs)]: a promise, pending for [use]. *)
Definition createSourceMapper (dirs : list SearchDir) (use : MapperUse) : M nat :=
  mid <- gensym ;;
  emit (CreateSourceMapper mid dirs) ;;
  modify (set_mappers (fun l => l ++ [(mid, use)])) ;;
  ret mid.

(** [[
    function handleError(error: AxiosError) {
      if (error.response) {
        log('Pyroscope received error while ingesting data to server')
        log(error.response.data)
      } else if (error.request) {
        log('Error when ingesting data to server:', error.message)
      } else {
        log('Error', error.message)
      }
    }
    ]] *)
Definition handleError (error : AxiosError) : M unit :=
  match response error with
  | Some r =>
      log ["Pyroscope received error while ingesting data to server"] ;;
      log [data r]
  | None =>
      if request error
      then log ["Error when ingesting data to server:"; message error]
      else log ["Error"; message error]
  end.

(** [promise.catch(handler)]: a rejection is given to the handler, and the
    new promise is fulfilled with what the handler returns. *)
Definition catch {A E : Type} (r : Settled A E) (handler : E -> M unit)
  : M (Settled (option A) E) :=
  match r with
  | Fulfilled a => ret (Fulfilled (Some a))
  | Rejected e => handler e ;; ret (Fulfilled None)
  end.

(** The URL of [uploadProfile]:
    [`${config.server}/ingest?name=${config.name}{${tagList}}&sampleRate=${SAMPLERATE}`] *)
Definition upload_url (c : PyroscopeConfig) : string :=
  (template_of (server c) ++ "/ingest?name=" ++ name c
     ++ Tags.fragment (tags c)
     ++ "&sampleRate=" ++ string_of_number SAMPLERATE)%string.

(** The form [uploadProfile] fills in. *)
Definition profile_form (buf : Buffer) : FormData :=
  {| fieldName := "profile";
     fieldValue := buf;
     knownLength := byteLength buf;
     contentType := "text/json";
     filename := "profile" |}.

(** [uploadProfile(profile)] up to [await pprof.encode(profile)]. *)
Definition uploadProfile (o : Origin) (profile : Profile) : M nat :=
  uid <- gensym ;;
  emit (Encode uid profile) ;;
  modify (set_encodes (fun l => l ++ [(uid, (o, profile))])) ;;
  ret uid.

(** [uploadProfile] from the encoded buffer to the [axios] call. *)
Definition uploadProfile_send (o : Origin) (buf : Buffer) : M nat :=
  let formData := profile_form buf in
  c <- gets config ;;
  let url := upload_url c in
  log [("Sending data to " ++ url)%string] ;;
  rid <- gensym ;;
  emit (Post rid url formData) ;;
  modify (set_posts (fun l => l ++ [(rid, o)])) ;;
  ret rid.

(** [uploadProfile] once [axios] settles: [.catch(handleError)]. *)
Definition uploadProfile_settle (r : Settled AxiosResponse AxiosError)
  : M (Settled (option AxiosResponse) AxiosError) :=
  catch r handleError.

(** What waits for [uploadProfile]: [.then((d) => log('CPU Profile has been
    uploaded'))] in a CPU round, [log('Heap profile uploaded...')] after the
    [await] of a heap tick.  A rejection skips it, and nothing handles it. *)
Definition after_upload {A E : Type} (o : Origin) (r : Settled A E) : M unit :=
  match r, o with
  | Fulfilled _, CpuRound => log ["CPU Profile has been uploaded"]
  | Fulfilled _, HeapTick => log ["Heap profile uploaded..."]
  | Rejected _, CpuRound => emit (Rejection CpuRoundChain)
  | Rejected _, HeapTick => emit (Rejection HeapTickCallback)
  end.

(** The closure [profilingRound] of loop [l], up to the pending
    [pprof.time.profile] promise. *)
Definition profilingRound (l : nat) : M unit :=
  log ["Collecting CPU Profile"] ;;
  mapper <- gets (fun s => sm (config s)) ;;
  cid <- gensym ;;
  emit (TimeProfile l cid
          {| lineNumbers := true;
             sourceMapper := mapper;
             durationMillis := INTERVAL;
             intervalMicros := 10000 |}) ;;
  modify (set_captures (fun c => c ++ [(cid, l)])).

(** The first [.then] of [profilingRound], given the captured profile. *)
Definition profilingRound_then (l : nat) (profile : Profile) : M unit :=
  log ["CPU Profile collected"] ;;
  running <- gets isCpuProfilingRunning ;;
  when running (setImmediate l) ;;
  log ["CPU Profile uploading"] ;;
  uploadProfile CpuRound profile ;;
  ret tt.

(** [startCpuProfiling(tags)]; each call makes a [profilingRound] closure. *)
Definition startCpuProfiling (tags : TagList) : M unit :=
  log ["Pyroscope has started CPU Profiling"] ;;
  modify (set_isCpuProfilingRunning true) ;;
  l <- gensym ;;
  profilingRound l.

(** [stopCpuProfiling()] *)
Definition stopCpuProfiling : M unit :=
  modify (set_isCpuProfilingRunning false).

(** What the promise of a [startHeapProfiling] call does at once. *)
Inductive HeapStartResult : Type :=
| ReturnsFalse
| AwaitsMapper (mid : nat).

(** [startHeapProfiling(tags)] up to [await pprof.SourceMapper.create]. *)
Definition startHeapProfiling (tags : TagList) : M HeapStartResult :=
  timer <- gets heapProfilingTimer ;;
  match timer with
  | Some _ => ret ReturnsFalse
  | None =>
      log ["Pyroscope has started heap profiling"] ;;
      mid <- createSourceMapper [ProcessCwd] ForHeap ;;
      ret (AwaitsMapper mid)
  end.

Definition is_heap_start (o : Obs) : bool :=
  match o with
  | HeapStart _ _ => true
  | _ => false
  end.

(** Whether the heap sampler of [pprof] is started.  The module has no call
    of [pprof.heap.stop], so the sampler is started from the first
    [pprof.heap.start] that returned. *)
Definition heapSamplerStarted (s : State) : bool :=
  existsb is_heap_start (trace s).

(** [startHeapProfiling] after the [await], with the mapper [mapper].
    [pprof.heap.start] throws when the sampler is already started: the
    promise of the call is then rejected and [setInterval] is not reached. *)
Definition startHeapProfiling_resume (mapper : SourceMapper) : M unit :=
  let intervalBytes := (1024 * 512)%N in
  let stackDepth := 32%N in
  started <- gets heapSamplerStarted ;;
  if started
  then emit (Rejection StartHeapProfilingCall)
  else
    emit (HeapStart intervalBytes stackDepth) ;;
    tid <- gensym ;;
    emit (SetInterval tid INTERVAL) ;;
    modify (set_intervals (fun l => l ++ [(tid, mapper)])) ;;
    modify (set_heapProfilingTimer (Some tid)).

(** The callback of the heap timer; [profile] is what
    [pprof.heap.profile(undefined, sm)] returns. *)
Definition heapTick (mapper : SourceMapper) (profile : Profile) : M unit :=
  log ["Collecting heap profile"] ;;
  emit (HeapProfile mapper profile) ;;
  log ["Heap profile collected..."] ;;
  uploadProfile HeapTick profile ;;
  ret tt.

(** [stopHeapProfiling()] *)
Definition stopHeapProfiling : M unit :=
  timer <- gets heapProfilingTimer ;;
  match timer with
  | Some t =>
      log ["Stopping heap profiling"] ;;
      emit (ClearInterval t) ;;
      modify (set_intervals (remove t)) ;;
      modify (set_heapProfilingTimer None)
  | None => ret tt
  end.

(** [init(c)] *)
Definition init (a : Arg PyroscopeConfig) : M unit :=
  let c := truthy_param init_default a in
  match c with
  | Some c =>
      modify (set_config (with_server (Some (or_default (server c) DEFAULT_SERVER)))) ;;
      modify (set_config (with_sourceMapPath (sourceMapPath c))) ;;
      paths <- gets (fun s => sourceMapPath (config s)) ;;
      match paths with
      | Some dirs => createSourceMapper (map Dir dirs) ForConfig ;; ret tt
      | None => ret tt
      end ;;
      modify (set_config (with_tags (tags c)))
  | None => ret tt
  end ;;
  match c with
  | Some c =>
      when (autoStart c)
        (startCpuProfiling [] ;;
         startHeapProfiling [] ;;
         ret tt)
  | None => ret tt
  end.

(** ** Events: calls from the application and results from outside *)

Inductive Event : Type :=
| CallInit (a : Arg PyroscopeConfig)
| CallStartCpuProfiling (tags : TagList)
| CallStopCpuProfiling
| CallStartHeapProfiling (tags : TagList)
| CallStopHeapProfiling
| TimeProfileSettles (cid : nat) (r : Settled Profile string)
| Immediate
| EncodeSettles (uid : nat) (r : Settled Buffer string)
| AxiosSettles (rid : nat) (r : Settled AxiosResponse AxiosError)
| SourceMapperSettles (mid : nat) (r : Settled SourceMapper string)
| IntervalFires (tid : nat) (profile : Profile).

(** The promise [cid] of [pprof.time.profile] settles. *)
Definition on_time_profile (cid : nat) (r : Settled Profile string) : M unit :=
  pending <- gets (fun s => lookup cid (captures s)) ;;
  match pending with
  | None => ret tt
  | Some l =>
      modify (set_captures (remove cid)) ;;
      match r with
      | Fulfilled profile =>
          emit (TimeProfileSettled l cid true) ;;
          profilingRound_then l profile
      | Rejected _ =>
          emit (TimeProfileSettled l cid false) ;;
          emit (Rejection CpuRoundChain)
      end
  end.

(** The event loop runs the oldest [setImmediate] callback. *)
Definition on_immediate : M unit :=
  queue <- gets immediates ;;
  match queue with
  | [] => ret tt
  | l :: rest =>
      modify (set_immediates (fun _ => rest)) ;;
      profilingRound l
  end.

(** The promise [uid] of [pprof.encode] settles. *)
Definition on_encode (uid : nat) (r : Settled Buffer string) : M unit :=
  pending <- gets (fun s => lookup uid (encodes s)) ;;
  match pending with
  | None => ret tt
  | Some (o, _) =>
      modify (set_encodes (remove uid)) ;;
      match r with
      | Fulfilled buf => uploadProfile_send o buf ;; ret tt
      | Rejected _ => after_upload o r
      end
  end.

(** The request [rid] of [axios] settles. *)
Definition on_axios (rid : nat) (r : Settled AxiosResponse AxiosError) : M unit :=
  pending <- gets (fun s => lookup rid (posts s)) ;;
  match pending with
  | None => ret tt
  | Some o =>
      modify (set_posts (remove rid)) ;;
      r' <- uploadProfile_settle r ;;
      after_upload o r'
  end.

(** The promise [mid] of [pprof.SourceMapper.create] settles. *)
Definition on_source_mapper (mid : nat) (r : Settled SourceMapper string) : M unit :=
  pending <- gets (fun s => lookup mid (mappers s)) ;;
  match pending with
  | None => ret tt
  | Some use =>
      modify (set_mappers (remove mid)) ;;
      match use, r with
      | ForConfig, Fulfilled mapper => modify (set_config (with_sm (Some mapper)))
      | ForConfig, Rejected _ => emit (Rejection InitSourceMapper)
      | ForHeap, Fulfilled mapper => startHeapProfiling_resume mapper
      | ForHeap, Rejected _ => emit (Rejection StartHeapProfilingCall)
      end
  end.

(** The timer [tid] fires, if [clearInterval] has not removed it. *)
Definition on_interval (tid : nat) (profile : Profile) : M unit :=
  active <- gets (fun s => lookup tid (intervals s)) ;;
  match active with
  | None => ret tt
  | Some mapper => heapTick mapper profile
  end.

Definition handle (e : Event) : M unit :=
  match e with
  | CallInit a => init a
  | CallStartCpuProfiling tags => startCpuProfiling tags
  | CallStopCpuProfiling => stopCpuProfiling
  | CallStartHeapProfiling tags => startHeapProfiling tags ;; ret tt
  | CallStopHeapProfiling => stopHeapProfiling
  | TimeProfileSettles cid r => on_time_profile cid r
  | Immediate => on_immediate
  | EncodeSettles uid r => on_encode uid r
  | AxiosSettles rid r => on_axios rid r
  | SourceMapperSettles mid r => on_source_mapper mid r
  | IntervalFires tid profile => on_interval tid profile
  end.

(** One turn of the event loop. *)
Definition exec (e : Event) (s : State) : State := snd (handle e s).

(** A history of turns, oldest first. *)
Definition run (es : list Event) (s : State) : State :=
  fold_left (fun s e => exec e s) es s.

(** ** Vocabulary of the properties *)

(** The three kinds of failed request of the upload pipeline: the server
    answered outside 2xx, the request was sent and nothing came back, the
    request could not be set up. *)
Inductive FailureClass : Type := ServerResponded | NoResponse | NotSent.

Definition classify (error : AxiosError) : FailureClass :=
  match response error with
  | Some _ => ServerResponded
  | None => if request error then NoResponse else NotSent
  end.

(** The line that opens the log entry of each kind. *)
Definition class_line (c : FailureClass) : string :=
  match c with
  | ServerResponded => "Pyroscope received error while ingesting data to server"
  | NoResponse => "Error when ingesting data to server:"
  | NotSent => "Error"
  end.

(** What is logged for a failed request. *)
Definition failure_log (error : AxiosError) : list Obs :=
  match response error with
  | Some r => [Log [class_line ServerResponded]; Log [data r]]
  | None => [Log [class_line (classify error); message error]]
  end.

(** The line logged by whoever waited for the upload. *)
Definition uploaded_line (o : Origin) : string :=
  match o with
  | CpuRound => "CPU Profile has been uploaded"
  | HeapTick => "Heap profile uploaded..."
  end.

Definition is_rejection (o : Obs) : bool :=
  match o with
  | Rejection _ => true
  | _ => false
  end.

Definition is_post (o : Obs) : bool :=
  match o with
  | Post _ _ _ => true
  | _ => false
  end.

Definition is_set_immediate (o : Obs) : bool :=
  match o with
  | SetImmediate _ => true
  | _ => false
  end.

(** A request, if [o] is one, goes to the upload URL of configuration [c]. *)
Definition post_from (c : PyroscopeConfig) (o : Obs) : Prop :=
  match o with
  | Post _ url _ => url = upload_url c
  | _ => True
  end.

(** A request, if [o] is one, carries the application name [n]. *)
Definition post_named (n : string) (o : Obs) : Prop :=
  match o with
  | Post _ url _ =>
      exists (srv : option string) (tg : TagList),
        url = (template_of srv ++ "/ingest?name=" ++ n
                 ++ Tags.fragment tg ++ "&sampleRate=100")%string
  | _ => True
  end.

(** The event with the tag argument of a start call replaced by [{}]. *)
Definition drop_tags (e : Event) : Event :=
  match e with
  | CallStartCpuProfiling _ => CallStartCpuProfiling []
  | CallStartHeapProfiling _ => CallStartHeapProfiling []
  | _ => e
  end.

(** The event calls [startCpuProfiling], directly or through [init]. *)
Definition starts_cpu (e : Event) : bool :=
  match e with
  | CallStartCpuProfiling _ => true
  | CallInit a =>
      match truthy_param init_default a with
      | Some c => autoStart c
      | None => false
      end
  | _ => false
  end.

(** The event settles the capture promise [cid]. *)
Definition settles (cid : nat) (e : Event) : bool :=
  match e with
  | TimeProfileSettles cid' _ => Nat.eqb cid' cid
  | _ => false
  end.

(** The event is a result of the upload pipeline, good or bad. *)
Definition is_upload_event (e : Event) : bool :=
  match e with
  | EncodeSettles _ _ => true
  | AxiosSettles _ _ => true
  | _ => false
  end.

(** The scenario of the spec's end-to-end test. *)
Definition scenario_config : PyroscopeConfig :=
  {| server := Some "http://example:4040";
     name := "svc";
     sourceMapPath := None;
     autoStart := false;
     sm := None;
     tags := [("env", "prod")] |}.

Definition fake_profile : Profile := ProfileObject 0.

Definition fake_bytes : Buffer := [Byte.x1f; Byte.x8b; Byte.x08].

(** [init], one CPU round begun by [startCpuProfiling], the stubbed capture
    returning the fake profile, and its encoding. *)
Definition scenario : list Event :=
  [ CallInit (Given scenario_config);
    CallStartCpuProfiling [];
    TimeProfileSettles 1 (Fulfilled fake_profile);
    EncodeSettles 2 (Fulfilled fake_bytes) ].

(** The event is a call of [stopHeapProfiling]. *)
Definition is_stop_heap (e : Event) : bool :=
  match e with
  | CallStopHeapProfiling => true
  | _ => false
  end.

(** The heap sampler was started at most once, and the handle and the
    timers agree: the handle names the one timer there is, or there is
    none. *)
Definition heap_once (s : State) : Prop :=
  match heapProfilingTimer s with
  | Some t =>
      (exists m, intervals s = [(t, m)])
      /\ List.length (filter is_heap_start (trace s)) = 1
  | None =>
      intervals s = []
      /\ List.length (filter is_heap_start (trace s)) <= 1
  end.

(** Two [startHeapProfiling] calls in a row, then the two source mappers. *)
Definition double_heap_start : list Event :=
  [ CallStartHeapProfiling [];
    CallStartHeapProfiling [];
    SourceMapperSettles 0 (Fulfilled (SourceMapperObject 0));
    SourceMapperSettles 1 (Fulfilled (SourceMapperObject 1)) ].

(** *** Rounds of one CPU loop, read off the history *)

(** Where the loop of one [profilingRound] closure stands: between rounds,
    with the capture [cid] under way, or ended by a capture that failed. *)
Inductive RoundState : Type :=
| Idle
| Capturing (cid : nat)
| Ended.

(** One observation moves the loop [l]; [None] when a capture begins while
    another of the same loop is under way, or settles without being so. *)
Definition round_step (l : nat) (st : option RoundState) (o : Obs)
  : option RoundState :=
  match o with
  | TimeProfile l' cid _ =>
      if Nat.eqb l' l
      then match st with
           | Some Idle => Some (Capturing cid)
           | _ => None
           end
      else st
  | TimeProfileSettled l' cid ok =>
      if Nat.eqb l' l
      then match st with
           | Some (Capturing cid') =>
               if Nat.eqb cid cid'
               then Some (if ok then Idle else Ended)
               else None
           | _ => None
           end
      else st
  | _ => st
  end.

Definition rounds (l : nat) (t : list Obs) : option RoundState :=
  fold_left (round_step l) t (Some Idle).

(** The pending captures of loop [l]. *)
Definition of_loop (l : nat) (c : list (nat * nat)) : list (nat * nat) :=
  filter (fun x => Nat.eqb (snd x) l) c.

(** How many [setImmediate] callbacks of loop [l] wait in the queue. *)
Definition scheduled (l : nat) (s : State) : nat :=
  count_occ Nat.eq_dec (immediates s) l.

Definition is_capture_obs (o : Obs) : bool :=
  match o with
  | TimeProfile _ _ _ => true
  | TimeProfileSettled _ _ _ => true
  | _ => false
  end.

(** The state agrees with the history on loop [l]. *)
Definition loop_inv (l : nat) (s : State) : Prop :=
  match rounds l (trace s) with
  | Some Idle => of_loop l (captures s) = [] /\ scheduled l s <= 1
  | Some (Capturing cid) => of_loop l (captures s) = [(cid, l)] /\ scheduled l s = 0
  | Some Ended => of_loop l (captures s) = [] /\ scheduled l s = 0
  | None => False
  end.

(** Numbers not yet handed out name no loop and no capture. *)
Definition fresh_inv (s : State) : Prop :=
  (forall l, fresh s <= l -> rounds l (trace s) = Some Idle /\ scheduled l s = 0)
  /\ Forall (fun x => fst x < fresh s) (captures s)
  /\ NoDup (map fst (captures s)).

Definition cpu_inv (s : State) : Prop :=
  fresh_inv s /\ forall l, loop_inv l s.

(** A turn that leaves the CPU loops alone. *)
Definition cpu_frame (s s' : State) : Prop :=
  captures s' = captures s
  /\ immediates s' = immediates s
  /\ fresh s <= fresh s'
  /\ exists t, trace s' = trace s ++ t
               /\ Forall (fun o => is_capture_obs o = false) t.

(** The event is one the CPU loops react to. *)
Definition cpu_event (e : Event) : bool :=
  match e with
  | TimeProfileSettles _ _ => true
  | Immediate => true
  | _ => starts_cpu e
  end.

(** The configuration with [autoStart] off. *)
Definition without_autoStart (c : PyroscopeConfig) : PyroscopeConfig :=
  {| server := server c; name := name c; sourceMapPath := sourceMapPath c;
     autoStart := false; sm := sm c; tags := tags c |}.

(** One loop, two rounds. *)
Definition two_rounds : list Event :=
  [ CallStartCpuProfiling [];
    TimeProfileSettles 1 (Fulfilled fake_profile);
    Immediate ].

(** ** Vocabulary of further properties *)

Definition is_encode (o : Obs) : bool :=
  match o with
  | Encode _ _ => true
  | _ => false
  end.

Definition is_fulfilled_capture (o : Obs) : bool :=
  match o with
  | TimeProfileSettled _ _ true => true
  | _ => false
  end.

Definition is_heap_profile (o : Obs) : bool :=
  match o with
  | HeapProfile _ _ => true
  | _ => false
  end.

(** How many observations of a kind a history holds. *)
Definition count_obs (f : Obs -> bool) (t : list Obs) : nat :=
  List.length (filter f t).

(** A request, if [o] is one, carries the form [uploadProfile] fills in:
    one field [profile] whose declared length is that of its bytes. *)
Definition post_well_formed (o : Obs) : Prop :=
  match o with
  | Post _ _ form => form = profile_form (fieldValue form)
  | _ => True
  end.

(** A request, if [o] is one, goes to a server that is not empty, under the
    application name [n]. *)
Definition post_to_server (n : string) (o : Obs) : Prop :=
  match o with
  | Post _ url _ =>
      exists (srv : string) (tg : TagList),
        srv <> ""
        /\ url = (srv ++ "/ingest?name=" ++ n
                    ++ Tags.fragment tg ++ "&sampleRate=100")%string
  | _ => True
  end.

(** The global server URL is a string that is not empty. *)
Definition server_set (s : State) : Prop :=
  exists x, server (config s) = Some x /\ x <> "".

(** The promise chain left rejected when the upload of [o] rejects. *)
Definition chain_of (o : Origin) : Chain :=
  match o with
  | CpuRound => CpuRoundChain
  | HeapTick => HeapTickCallback
  end.

(** The global configuration after [init] was given [c]. *)
Definition configured (c old : PyroscopeConfig) : PyroscopeConfig :=
  {| server := Some (or_default (server c) DEFAULT_SERVER);
     name := name old;
     sourceMapPath := sourceMapPath c;
     autoStart := autoStart old;
     sm := sm old;
     tags := tags c |}.

(** *** Heap session *)

Definition is_for_heap (x : nat * MapperUse) : bool :=
  match snd x with
  | ForHeap => true
  | ForConfig => false
  end.

(** How many [startHeapProfiling] calls wait for their source mapper. *)
Definition pending_heap (s : State) : nat :=
  List.length (filter is_for_heap (mappers s)).

(** The event calls [startHeapProfiling], directly or through [init]. *)
Definition starts_heap (e : Event) : bool :=
  match e with
  | CallStartHeapProfiling _ => true
  | CallInit a =>
      match truthy_param init_default a with
      | Some c => autoStart c
      | None => false
      end
  | _ => false
  end.

(** A history in which [startHeapProfiling] is never called while an
    earlier call still waits for its source mapper. *)
Fixpoint serial (s : State) (es : list Event) : bool :=
  match es with
  | [] => true
  | e :: rest =>
      (negb (starts_heap e) || Nat.eqb (pending_heap s) 0)
      && serial (exec e s) rest
  end.

(** The handle and the timers agree: one timer, named by the handle, or
    none and at most one start call under way. *)
Definition heap_inv (s : State) : Prop :=
  match heapProfilingTimer s with
  | Some t => (exists m, intervals s = [(t, m)]) /\ pending_heap s = 0
  | None => intervals s = [] /\ pending_heap s <= 1
  end.

(** The heap session was stopped after the sampler had been started: no
    timer, no handle, and the sampler still on. *)
Definition heap_spent (s : State) : Prop :=
  heapSamplerStarted s = true
  /\ heapProfilingTimer s = None
  /\ intervals s = [].

(** A history of the heap session used one call at a time. *)
Definition heap_session : list Event :=
  [ CallStartHeapProfiling [];
    SourceMapperSettles 0 (Fulfilled (SourceMapperObject 0));
    CallStartHeapProfiling [];
    IntervalFires 1 fake_profile;
    CallStopHeapProfiling;
    CallStartHeapProfiling [] ].

(** The event belongs to the heap session alone. *)
Definition heap_only (e : Event) : bool :=
  match e with
  | CallStartHeapProfiling _ => true
  | CallStopHeapProfiling => true
  | IntervalFires _ _ => true
  | SourceMapperSettles _ _ => true
  | _ => false
  end.

(** The event belongs to the CPU loops alone. *)
Definition cpu_only (e : Event) : bool :=
  match e with
  | CallStartCpuProfiling _ => true
  | CallStopCpuProfiling => true
  | TimeProfileSettles _ _ => true
  | Immediate => true
  | _ => false
  end.

(** *** CPU loop *)

(** How many events of a history call [startCpuProfiling]. *)
Definition count_starts (es : list Event) : nat :=
  List.length (filter starts_cpu es).

(** One full round of a loop: its capture is fulfilled, then the event loop
    runs the callback it scheduled. *)
Definition round_events (cid : nat) (p : Profile) : list Event :=
  [ TimeProfileSettles cid (Fulfilled p); Immediate ].

(** The captures that [n] calls of [startCpuProfiling] begin, from the
    number [f] on: each call takes one number for its closure and the next
    for its capture. *)
Fixpoint new_loops (f n : nat) : list (nat * nat) :=
  match n with
  | 0 => []
  | S n' => (S f, f) :: new_loops (S (S f)) n'
  end.

(** Consecutive rounds of one loop with nothing in between: the capture
    [cid] yields the first profile, and each later capture has the number
    that follows the one taken by the upload before it ([f] is the next
    free number at the start). *)
Fixpoint rounds_from (cid f : nat) (ps : list Profile) : list Event :=
  match ps with
  | [] => []
  | p :: rest => round_events cid p ++ rounds_from (S f) (S (S f)) rest
  end.

(** ** The local file sink: [writeProfileAsync] *)

(** A JavaScript number counts the naturals exactly up to [2^53]. *)
Definition MAX_EXACT : N := 9007199254740992.

(** [n += 1] on a number that holds a natural up to [2^53]: at [2^53] the
    sum has no representation of its own and rounds back to [2^53]. *)
Definition number_succ (n : N) : N :=
  if (n <? MAX_EXACT)%N then (n + 1)%N else n.

Module Writer.

(** The global [chunk] (a number that starts at [0] and is only ever
    incremented, so a natural up to [2^53]), the pending promises of [pprof.encode] and pending
    [fs.writeFile] calls, and what was observed: the files written to, the
    lines on the console, promises rejected with nobody handling them, and
    whether an exception thrown in a callback has ended the process. *)
Record State := {
  chunk : N;
  next : nat;
  encoding : list (nat * Profile);
  writing : list (nat * string);
  written : list (string * Buffer);
  console : list string;
  unhandled : nat;
  crashed : bool }.

Definition initial : State :=
  {| chunk := 0; next := 0; encoding := []; writing := [];
     written := []; console := []; unhandled := 0; crashed := false |}.

(** [`${config.name}-${chunk}.pb.gz`] *)
Definition path (c : PyroscopeConfig) (k : N) : string :=
  (name c ++ "-" ++ string_of_number k ++ ".pb.gz")%string.

Inductive Event : Type :=
| Call (profile : Profile)
| EncodeSettles (id : nat) (r : Settled Buffer string)
| WriteFileDone (id : nat) (err : option string).

(** [writeProfileAsync(profile)]: [pprof.encode(profile)] is begun. *)
Definition writeProfileAsync (profile : Profile) (s : State) : State :=
  {| chunk := chunk s; next := S (next s);
     encoding := encoding s ++ [(next s, profile)];
     writing := writing s; written := written s; console := console s;
     unhandled := unhandled s; crashed := crashed s |}.

(** The [.then((buf) => fs.writeFile(...))] of the encoding [id]; a rejected
    encoding skips it, and the promise [.then] returns is dropped. *)
Definition on_encode (c : PyroscopeConfig) (id : nat)
  (r : Settled Buffer string) (s : State) : State :=
  match lookup id (encoding s) with
  | None => s
  | Some _ =>
      match r with
      | Fulfilled buf =>
          {| chunk := chunk s; next := S (next s);
             encoding := remove id (encoding s);
             writing := writing s ++ [(next s, path c (chunk s))];
             written := written s ++ [(path c (chunk s), buf)];
             console := console s;
             unhandled := unhandled s; crashed := crashed s |}
      | Rejected _ =>
          {| chunk := chunk s; next := next s;
             encoding := remove id (encoding s);
             writing := writing s; written := written s; console := console s;
             unhandled := S (unhandled s); crashed := crashed s |}
      end
  end.

(** The callback of [fs.writeFile]:
    [(err) => { if (err) throw err; console.log('Chunk written'); chunk += 1 }] *)
Definition on_write (id : nat) (err : option string) (s : State) : State :=
  match lookup id (writing s) with
  | None => s
  | Some _ =>
      match err with
      | Some _ =>
          {| chunk := chunk s; next := next s; encoding := encoding s;
             writing := remove id (writing s);
             written := written s; console := console s;
             unhandled := unhandled s; crashed := true |}
      | None =>
          {| chunk := number_succ (chunk s); next := next s; encoding := encoding s;
             writing := remove id (writing s);
             written := written s;
             console := console s ++ ["Chunk written"];
             unhandled := unhandled s; crashed := crashed s |}
      end
  end.

(** One turn of the event loop; none once the process has ended. *)
Definition exec (c : PyroscopeConfig) (e : Event) (s : State) : State :=
  if crashed s then s
  else match e with
       | Call profile => writeProfileAsync profile s
       | EncodeSettles id r => on_encode c id r s
       | WriteFileDone id err => on_write id err s
       end.

Definition run (c : PyroscopeConfig) (es : list Event) (s : State) : State :=
  fold_left (fun s e => exec c e s) es s.

(** A file written to, if [f] is one of configuration [c], is chunk [k]
    for some [k] up to [bound]. *)
Definition chunk_file (c : PyroscopeConfig) (bound : N) (f : string * Buffer) : Prop :=
  exists k, (k <= bound)%N /\ fst f = path c k.

(** What every history of the sink keeps: the counter is the number of
    completed writes, or [2^53] once there were that many, every file
    written to is a chunk up to the counter,
    every write begun is completed, pending or failed, and numbers not yet
    handed out name nothing. *)
Definition inv (c : PyroscopeConfig) (s : State) : Prop :=
  chunk s = N.min (N.of_nat (List.length (console s))) MAX_EXACT
  /\ Forall (chunk_file c (chunk s)) (written s)
  /\ List.length (console s) + List.length (writing s) <= List.length (written s)
  /\ Forall (fun x => fst x < next s) (encoding s)
  /\ Forall (fun x => fst x < next s) (writing s).

(** One profile written from call to completion. *)
Definition cycle (s : State) (profile : Profile) (buf : Buffer) : list Event :=
  [ Call profile;
    EncodeSettles (next s) (Fulfilled buf);
    WriteFileDone (S (next s)) None ].

End Writer.

(** * Proofs *)

(** ** Running a handler symbolically *)

Ltac unfold_module :=
  repeat progress unfold exec, handle, init, startCpuProfiling, stopCpuProfiling,
    startHeapProfiling, startHeapProfiling_resume, stopHeapProfiling,
    heapTick, profilingRound, profilingRound_then, on_time_profile,
    on_immediate, on_encode, on_axios, on_source_mapper, on_interval,
    uploadProfile, uploadProfile_send, uploadProfile_settle, after_upload,
    catch, handleError, createSourceMapper, setImmediate, truthy_param,
    when, log, emit, gensym, modify, gets, bind, ret in *.

Ltac break_match :=
  match goal with
  | |- context [match ?x with _ => _ end] => destruct x eqn:?
  end.

Ltac run_handler := unfold_module; cbn; repeat (break_match; cbn).

(** Two states with the same fields are the same state. *)
Lemma state_ext (s s' : State) :
  config s = config s' ->
  heapProfilingTimer s = heapProfilingTimer s' ->
  isCpuProfilingRunning s = isCpuProfilingRunning s' ->
  fresh s = fresh s' ->
  captures s = captures s' ->
  immediates s = immediates s' ->
  encodes s = encodes s' ->
  posts s = posts s' ->
  mappers s = mappers s' ->
  intervals s = intervals s' ->
  trace s = trace s' ->
  s = s'.
Proof.
  destruct s, s'; simpl; intros; subst; reflexivity.
Qed.

Ltac same_state :=
  apply state_ext; cbn; rewrite <- ?app_assoc; reflexivity.

Lemma exec_name (e : Event) (s : State) :
  name (config (exec e s)) = name (config s).
Proof.
  destruct e; run_handler; reflexivity.
Qed.

(** ** Tag model *)

Section TagModel.

Import Tags.

Lemma get_head_miss (k v t : string) (rest : TagList) :
  k <> t -> get ((k, v) :: rest) t = get rest t.
Proof.
  intros Hne. simpl. apply String.eqb_neq in Hne. now rewrite Hne.
Qed.

(** In a well-formed object every listed pair is what the key reads. *)
Lemma get_of_entry (T : TagList) :
  wf T -> forall k v, In (k, v) T -> get T k = Some v.
Proof.
  unfold wf. induction T as [|[k0 v0] rest IH]; intros Hwf k v Hin.
  - contradiction.
  - simpl in Hwf. inversion Hwf as [|? ? Hnotin Hrest]; subst.
    destruct Hin as [Heq | Hin].
    + inversion Heq; subst. simpl. now rewrite String.eqb_refl.
    + rewrite get_head_miss.
      * now apply IH.
      * intros E. subst k0. apply Hnotin. now apply (in_map fst) in Hin.
Qed.

(** Mapping over the keys and reading each is mapping over the entries. *)
Lemma map_keys_entries {B : Type} (f : string -> option string -> B) (T : TagList) :
  wf T ->
  map (fun t => f t (get T t)) (keys T) = map (fun kv => f (fst kv) (Some (snd kv))) T.
Proof.
  intros Hwf. unfold keys. rewrite map_map. apply map_ext_in.
  intros [k v] Hin. simpl. f_equal. now apply get_of_entry.
Qed.

Lemma tagList_entries (T : TagList) :
  wf T -> tagList T = map pair_string T.
Proof.
  intros Hwf. unfold tagList.
  now rewrite (map_keys_entries (fun t v => (t ++ "=" ++ template_of v)%string)).
Qed.

Lemma tagListToLabels_entries (T : TagList) :
  wf T ->
  tagListToLabels T = map (fun kv => {| key := fst kv; str := Some (snd kv) |}) T.
Proof.
  intros Hwf. unfold tagListToLabels.
  now rewrite (map_keys_entries (fun t v => {| key := t; str := v |})).
Qed.

(** C3: for every tag mapping [T] (an object: one value per key), the label
    sequence of [tagListToLabels] has as many entries as [T], each label's
    (key, value) is an entry of [T] (label [i] is entry [i]), and the URL
    fragment is the pairs [key=value] of [T], every one of them, joined by
    commas inside braces; the upload URL embeds that fragment. *)
Theorem C3_tags_to_labels_and_fragment (T : TagList) (Hwf : wf T) :
  List.length (tagListToLabels T) = List.length T
  /\ Forall (fun lb => exists v, str lb = Some v /\ In (key lb, v) T) (tagListToLabels T)
  /\ map (fun lb => (key lb, str lb)) (tagListToLabels T)
     = map (fun kv => (fst kv, Some (snd kv))) T
  /\ (forall kv, In kv T -> In (pair_string kv) (tagList T))
  /\ fragment T = ("{" ++ join "," (map pair_string T) ++ "}")%string
  /\ (forall c, tags c = T ->
        upload_url c
        = (template_of (server c) ++ "/ingest?name=" ++ name c
             ++ ("{" ++ join "," (map pair_string T) ++ "}")
             ++ "&sampleRate=100")%string).
Proof.
  pose proof (tagListToLabels_entries T Hwf) as HL.
  pose proof (tagList_entries T Hwf) as HT.
  repeat split.
  - rewrite HL. apply length_map.
  - rewrite HL. apply Forall_forall. intros lb Hin.
    apply in_map_iff in Hin. destruct Hin as [[k v] [<- Hin]].
    exists v. simpl. now split.
  - rewrite HL, map_map. reflexivity.
  - intros kv Hin. rewrite HT. now apply in_map.
  - unfold fragment. now rewrite HT.
  - intros c Hc. unfold upload_url, fragment. now rewrite Hc, HT.
Qed.

End TagModel.

Lemma C3_tags_to_labels_and_fragment_witness :
  Tags.wf [("env", "prod"); ("region", "eu")]
  /\ List.length (Tags.tagListToLabels [("env", "prod"); ("region", "eu")]) = 2
  /\ Tags.fragment [("env", "prod"); ("region", "eu")] = "{env=prod,region=eu}".
Proof.
  assert (Hwf : Tags.wf [("env", "prod"); ("region", "eu")]).
  { unfold Tags.wf. simpl. repeat constructor; simpl; intuition discriminate. }
  split; [exact Hwf|].
  destruct (C3_tags_to_labels_and_fragment _ Hwf) as (Hlen & _ & _ & _ & Hfrag & _).
  split; [exact Hlen | exact Hfrag].
Defined.

(** ** Session controller *)

(** A falsy argument leaves everything as it was. *)
Lemma init_null (s : State) : exec (CallInit Null) s = s.
Proof. reflexivity. Qed.

Lemma or_default_nonempty (x d : string) : x <> "" -> or_default (Some x) d = x.
Proof. destruct x; [contradiction | reflexivity]. Qed.

Lemma init_server (a : Arg PyroscopeConfig) (c : PyroscopeConfig) (s : State) :
  truthy_param init_default a = Some c ->
  server (config (exec (CallInit a) s)) = Some (or_default (server c) DEFAULT_SERVER).
Proof.
  intros Hc. unfold exec, handle, init. rewrite Hc.
  run_handler; reflexivity.
Qed.

(** C9: after an [init] call that is given a configuration [c] (or none, and
    then [c] is the default value of the parameter), the global server URL is
    the supplied server string when that is not empty, and the default
    [http://localhost:4040] when the field is absent or empty. *)
Theorem C9_init_server_or_default
  (a : Arg PyroscopeConfig) (c : PyroscopeConfig) (s : State)
  (Hc : truthy_param init_default a = Some c) :
  (forall x, server c = Some x -> x <> "" ->
     server (config (exec (CallInit a) s)) = Some x)
  /\ (server c = None \/ server c = Some "" ->
      server (config (exec (CallInit a) s)) = Some "http://localhost:4040")
  /\ (a = Omitted ->
      server (config (exec (CallInit a) s)) = Some "http://localhost:4040").
Proof.
  rewrite (init_server a c s Hc). repeat split.
  - intros x Hx Hne. rewrite Hx. now rewrite or_default_nonempty.
  - intros [H | H]; now rewrite H.
  - intros ->. simpl in Hc. now inversion Hc.
Qed.

Lemma C9_init_server_or_default_witness :
  truthy_param init_default (Given scenario_config) = Some scenario_config
  /\ server (config (exec (CallInit (Given scenario_config)) initial))
     = Some "http://example:4040".
Proof.
  split; [reflexivity|].
  apply (proj1 (C9_init_server_or_default
                  (Given scenario_config) scenario_config initial eq_refl));
    [reflexivity | discriminate].
Defined.

(** *** What a turn adds to the history *)

Lemma run_cons (e : Event) (es : list Event) (s : State) :
  run (e :: es) s = run es (exec e s).
Proof. reflexivity. Qed.

(** No event of any kind assigns [config.name]. *)
Lemma run_name (es : list Event) (s : State) :
  name (config (run es s)) = name (config s).
Proof.
  revert s. induction es as [|e es IH]; intros s.
  - reflexivity.
  - rewrite run_cons, IH. apply exec_name.
Qed.

Ltac trace_tail :=
  repeat rewrite <- app_assoc;
  first [ exists []; split; [now rewrite app_nil_r | constructor]
        | eexists; split; [reflexivity | simpl ] ].

(** The requests of one turn go to the upload URL of the configuration the
    turn starts with. *)
Lemma exec_posts (e : Event) (s : State) :
  exists t, trace (exec e s) = trace s ++ t /\ Forall (post_from (config s)) t.
Proof.
  destruct e; run_handler; trace_tail; repeat constructor.
Qed.

Lemma post_from_named (c : PyroscopeConfig) (o : Obs) :
  post_from c o -> post_named (name c) o.
Proof.
  destruct o; simpl; try (intros _; exact I).
  intros ->. exists (server c), (tags c). reflexivity.
Qed.

Lemma run_posts_named (es : list Event) (s : State) :
  exists t, trace (run es s) = trace s ++ t
            /\ Forall (post_named (name (config s))) t.
Proof.
  revert s. induction es as [|e es IH]; intros s.
  - exists []. split; [now rewrite app_nil_r | constructor].
  - destruct (exec_posts e s) as (t1 & Ht1 & Hp1).
    destruct (IH (exec e s)) as (t2 & Ht2 & Hp2).
    exists (t1 ++ t2). split.
    + rewrite run_cons, Ht2, Ht1. now rewrite app_assoc.
    + apply Forall_app. split.
      * eapply Forall_impl; [|exact Hp1]. apply post_from_named.
      * now rewrite exec_name in Hp2.
Qed.

(** C2: whatever value [init] is given, it leaves [config.name] as it was;
    no later turn changes it either, so every request made afterwards
    carries in its URL the name that was there before the call, and from the
    module as loaded that is [nodejs]. *)
Theorem C2_init_keeps_name :
  (forall a s, name (config (exec (CallInit a) s)) = name (config s))
  /\ (forall a s es,
        name (config (run es (exec (CallInit a) s))) = name (config s)
        /\ exists t, trace (run es (exec (CallInit a) s)) = trace (exec (CallInit a) s) ++ t
                     /\ Forall (post_named (name (config s))) t)
  /\ (forall es,
        name (config (run es initial)) = "nodejs"
        /\ Forall (post_named "nodejs") (trace (run es initial))).
Proof.
  split; [|split].
  - intros a s. apply exec_name.
  - intros a s es. split.
    + now rewrite run_name, exec_name.
    + destruct (run_posts_named es (exec (CallInit a) s)) as (t & Ht & Hp).
      exists t. split; [exact Ht|]. now rewrite exec_name in Hp.
  - intros es. split.
    + now rewrite run_name.
    + destruct (run_posts_named es initial) as (t & Ht & Hp).
      rewrite Ht. exact Hp.
Qed.

(** ** The tag argument of the start calls *)

Lemma exec_drop_tags (e : Event) (s : State) : exec (drop_tags e) s = exec e s.
Proof. destruct e; reflexivity. Qed.

Lemma run_drop_tags (es : list Event) (s : State) :
  run (map drop_tags es) s = run es s.
Proof.
  revert s. induction es as [|e es IH]; intros s.
  - reflexivity.
  - simpl map. rewrite !run_cons, exec_drop_tags. apply IH.
Qed.

(** C10: the tag argument of [startCpuProfiling] and [startHeapProfiling]
    is never read: two calls that differ in it leave the same state, a whole
    history behaves as the one with every such argument emptied, and the
    requests of a turn go to the URL built from the global configuration,
    whose tag fragment is that of [config.tags]. *)
Theorem C10_start_tags_ignored :
  (forall t1 t2 s,
     exec (CallStartCpuProfiling t1) s = exec (CallStartCpuProfiling t2) s)
  /\ (forall t1 t2 s,
        exec (CallStartHeapProfiling t1) s = exec (CallStartHeapProfiling t2) s
        /\ fst (startHeapProfiling t1 s) = fst (startHeapProfiling t2 s))
  /\ (forall es s, run es s = run (map drop_tags es) s)
  /\ (forall e s,
        exists t, trace (exec e s) = trace s ++ t
                  /\ Forall (post_from (config s)) t)
  /\ (forall c,
        upload_url c
        = (template_of (server c) ++ "/ingest?name=" ++ name c
             ++ Tags.fragment (tags c) ++ "&sampleRate=100")%string).
Proof.
  repeat split.
  - intros es s. symmetry. apply run_drop_tags.
  - intros e s. apply exec_posts.
Qed.

(** ** Upload pipeline *)

Lemma class_line_injective (c1 c2 : FailureClass) :
  class_line c1 = class_line c2 -> c1 = c2.
Proof. destruct c1, c2; simpl; intros H; (reflexivity || discriminate H). Qed.

(** [handleError] only logs, and what it logs is [failure_log]. *)
Lemma handleError_spec (error : AxiosError) (s : State) :
  snd (handleError error s) = set_trace (fun t => t ++ failure_log error) s.
Proof.
  unfold handleError, failure_log, classify.
  destruct (response error) as [r|]; [|destruct (request error)];
    unfold_module; same_state.
Qed.

(** Whatever [axios] settles with, the promise of [uploadProfile] is
    fulfilled. *)
Lemma uploadProfile_settle_fulfilled
  (r : Settled AxiosResponse AxiosError) (s : State) :
  exists v, fst (uploadProfile_settle r s) = Fulfilled v.
Proof.
  destruct r as [resp|error].
  - now exists (Some resp).
  - now exists None.
Qed.

Lemma failure_log_opens_with_class (error : AxiosError) :
  exists rest more,
    failure_log error = Log (class_line (classify error) :: rest) :: more.
Proof.
  unfold failure_log, classify. destruct (response error) as [r|].
  - now exists [], [Log [data r]].
  - now exists [message error], [].
Qed.

(** C5: when the request of an upload fails, in any of the three ways
    (the server answered outside 2xx, nothing came back, the request could
    not be sent), for whatever profile: the promise of [uploadProfile] is
    fulfilled, not rejected; the log gets the entry of that class, whose
    first line tells the classes apart, and then the line of whoever waited
    for the upload; no rejection is recorded and no request or encoding is
    begun again: the turn changes nothing but the log and the list of
    pending requests, from which the failed one is gone. *)
Theorem C5_network_failures_swallowed
  (s : State) (rid : nat) (o : Origin) (error : AxiosError)
  (Hpending : lookup rid (posts s) = Some o) :
  fst (uploadProfile_settle (Rejected error) s) = Fulfilled None
  /\ exec (AxiosSettles rid (Rejected error)) s
     = set_trace (fun t => t ++ failure_log error ++ [Log [uploaded_line o]])
         (set_posts (remove rid) s)
  /\ (exists rest more,
        failure_log error = Log (class_line (classify error) :: rest) :: more)
  /\ (forall c1 c2, class_line c1 = class_line c2 -> c1 = c2)
  /\ filter is_rejection (failure_log error ++ [Log [uploaded_line o]]) = []
  /\ filter is_post (failure_log error ++ [Log [uploaded_line o]]) = [].
Proof.
  split; [reflexivity|]. split; [|split; [|split; [|split]]].
  - unfold exec, handle, on_axios, uploadProfile_settle, catch.
    unfold bind at 1. unfold gets at 1 2. cbn [fst snd]. rewrite Hpending.
    unfold bind, ret, modify. cbn [fst snd]. rewrite handleError_spec.
    destruct o; unfold_module; same_state.
  - apply failure_log_opens_with_class.
  - apply class_line_injective.
  - unfold failure_log. destruct (response error); reflexivity.
  - unfold failure_log. destruct (response error); reflexivity.
Qed.

Lemma C5_network_failures_swallowed_witness :
  lookup 3 (posts (run scenario initial)) = Some CpuRound
  /\ trace (exec (AxiosSettles 3
                   (Rejected {| response := Some {| status := 500; data := "boom" |};
                                request := true;
                                message := "Request failed" |}))
             (run scenario initial))
     = trace (run scenario initial)
         ++ [Log ["Pyroscope received error while ingesting data to server"];
             Log ["boom"];
             Log ["CPU Profile has been uploaded"]].
Proof.
  assert (H : lookup 3 (posts (run scenario initial)) = Some CpuRound)
    by (vm_compute; reflexivity).
  split; [exact H|].
  rewrite (proj1 (proj2 (C5_network_failures_swallowed _ 3 CpuRound _ H))).
  vm_compute. reflexivity.
Defined.

(** ** The end-to-end scenario *)

(** C1 (as the code behaves): in the scenario of the spec the one request
    goes to the server and tags of the configuration and carries the encoded
    bytes unchanged, but under the name [nodejs]: [init] does not take over
    the name [svc], so the URL is not the one the spec expects. *)
Theorem C1_scenario_request_keeps_default_name :
  filter is_post (trace (run scenario initial))
  = [ Post 3 "http://example:4040/ingest?name=nodejs{env=prod}&sampleRate=100"
        (profile_form fake_bytes) ]
  /\ fieldValue (profile_form fake_bytes) = fake_bytes
  /\ name scenario_config = "svc"
  /\ "http://example:4040/ingest?name=nodejs{env=prod}&sampleRate=100"
     <> "http://example:4040/ingest?name=svc{env=prod}&sampleRate=100".
Proof.
  split; [vm_compute; reflexivity|].
  split; [reflexivity|]. split; [reflexivity|]. discriminate.
Qed.

(** ** Heap profiling session *)

(** With a timer handle present, [startHeapProfiling] returns [false] at
    once and does nothing. *)
Lemma startHeapProfiling_running (tags : TagList) (s : State) (t : nat) :
  heapProfilingTimer s = Some t ->
  startHeapProfiling tags s = (ReturnsFalse, s)
  /\ exec (CallStartHeapProfiling tags) s = s.
Proof.
  intros Ht. unfold exec, handle, startHeapProfiling, bind, gets. cbn [fst snd].
  rewrite Ht. split; reflexivity.
Qed.

Lemma started_filter (s : State) :
  heapSamplerStarted s = false <-> filter is_heap_start (trace s) = [].
Proof.
  unfold heapSamplerStarted. induction (trace s) as [|o t IH]; simpl.
  - now split.
  - destruct (is_heap_start o); simpl; [split; discriminate | exact IH].
Qed.

(** Only the source mapper of a start call and [stopHeapProfiling] change
    the handle or the timers, and only the former starts the sampler. *)
Lemma exec_heap_fields (e : Event) (s : State) :
  match e with
  | SourceMapperSettles _ _ | CallStopHeapProfiling => True
  | _ =>
      heapProfilingTimer (exec e s) = heapProfilingTimer s
      /\ intervals (exec e s) = intervals s
      /\ filter is_heap_start (trace (exec e s)) = filter is_heap_start (trace s)
  end.
Proof.
  destruct e; try exact I; run_handler;
    rewrite ?filter_app; cbn; rewrite ?app_nil_r; repeat split;
    assumption.
Qed.

Lemma heap_once_same (s s' : State) :
  heapProfilingTimer s' = heapProfilingTimer s ->
  intervals s' = intervals s ->
  filter is_heap_start (trace s') = filter is_heap_start (trace s) ->
  heap_once s -> heap_once s'.
Proof. unfold heap_once. now intros -> -> ->. Qed.

(** What the source mapper of a start call leads to. *)
Lemma heap_mapper_fulfilled (s : State) (mid : nat) (m : SourceMapper) :
  lookup mid (mappers s) = Some ForHeap ->
  exec (SourceMapperSettles mid (Fulfilled m)) s
  = if heapSamplerStarted s
    then set_trace (fun t => t ++ [Rejection StartHeapProfilingCall])
           (set_mappers (remove mid) s)
    else set_heapProfilingTimer (Some (fresh s))
           (set_intervals (fun l => l ++ [(fresh s, m)])
              (set_trace (fun t => t ++ [ HeapStart (1024 * 512) 32;
                                          SetInterval (fresh s) INTERVAL ])
                 (set_fresh (S (fresh s))
                    (set_mappers (remove mid) s)))).
Proof.
  intros Hl. unfold_module. unfold heapSamplerStarted. cbn. rewrite Hl. cbn.
  destruct (existsb is_heap_start (trace s)); same_state.
Qed.

Lemma heap_mapper_other (s : State) (mid : nat) (r : Settled SourceMapper string) :
  (forall m, r = Fulfilled m -> lookup mid (mappers s) <> Some ForHeap) ->
  heapProfilingTimer (exec (SourceMapperSettles mid r) s) = heapProfilingTimer s
  /\ intervals (exec (SourceMapperSettles mid r) s) = intervals s
  /\ filter is_heap_start (trace (exec (SourceMapperSettles mid r) s))
     = filter is_heap_start (trace s).
Proof.
  intros Hr. unfold_module. cbn.
  destruct (lookup mid (mappers s)) as [[|]|] eqn:Hl; cbn;
    destruct r as [m|reason]; cbn;
    rewrite ?filter_app; cbn; rewrite ?app_nil_r; repeat split;
    exfalso; now apply (Hr m).
Qed.

Lemma heap_once_mapper (mid : nat) (r : Settled SourceMapper string) (s : State) :
  heap_once s -> heap_once (exec (SourceMapperSettles mid r) s).
Proof.
  intros Hinv.
  destruct (lookup mid (mappers s)) as [[|]|] eqn:Hl;
    try (destruct (heap_mapper_other s mid r) as (Ht & Hi & Hf);
         [intros m _; rewrite Hl; discriminate
         | now apply (heap_once_same s)]).
  destruct r as [m|reason].
  2: { destruct (heap_mapper_other s mid (Rejected reason)) as (Ht & Hi & Hf);
         [discriminate | now apply (heap_once_same s)]. }
  rewrite (heap_mapper_fulfilled s mid m Hl).
  destruct (heapSamplerStarted s) eqn:Hs.
  - apply (heap_once_same s); try reflexivity; [|exact Hinv].
    cbn. rewrite filter_app. cbn. now rewrite app_nil_r.
  - apply started_filter in Hs. unfold heap_once in *. cbn.
    rewrite filter_app, Hs. cbn.
    destruct (heapProfilingTimer s).
    + destruct Hinv as [_ H1]. rewrite Hs in H1. discriminate.
    + destruct Hinv as [Hi _]. rewrite Hi. split; [now eexists | reflexivity].
Qed.

Lemma heap_once_stop (s : State) :
  heap_once s -> heap_once (exec CallStopHeapProfiling s).
Proof.
  intros Hinv. unfold heap_once in *.
  destruct (heapProfilingTimer s) as [t|] eqn:Ht.
  - destruct Hinv as [[m Hi] Hone].
    unfold_module. cbn. rewrite Ht. cbn. rewrite Hi. unfold remove. simpl.
    rewrite Nat.eqb_refl. simpl. split; [reflexivity|].
    rewrite !filter_app. cbn. rewrite !app_nil_r. lia.
  - unfold_module. cbn. rewrite Ht. cbn. now rewrite Ht.
Qed.

Lemma exec_heap_once (e : Event) (s : State) :
  heap_once s -> heap_once (exec e s).
Proof.
  intros Hinv.
  destruct e;
    try (now apply heap_once_stop);
    try (now apply heap_once_mapper).
  all: match goal with
       | |- heap_once (exec ?e ?s0) =>
           destruct (exec_heap_fields e s0) as (Ht & Hi & Hf);
           now apply (heap_once_same s0)
       end.
Qed.

Lemma run_heap_once (es : list Event) (s : State) :
  heap_once s -> heap_once (run es s).
Proof.
  revert s. induction es as [|e es IH]; intros s Hinv; [exact Hinv|].
  rewrite run_cons. apply IH. now apply exec_heap_once.
Qed.

Lemma heap_once_initial : heap_once initial.
Proof. unfold heap_once. simpl. split; [reflexivity | lia]. Qed.

(** Without a stop, a sampler that is started has its timer. *)
Lemma exec_started_has_handle (e : Event) (s : State) :
  is_stop_heap e = false ->
  (heapSamplerStarted s = true -> heapProfilingTimer s <> None) ->
  heapSamplerStarted (exec e s) = true -> heapProfilingTimer (exec e s) <> None.
Proof.
  intros He Hinv.
  assert (Hsame : heapProfilingTimer (exec e s) = heapProfilingTimer s ->
                  filter is_heap_start (trace (exec e s))
                  = filter is_heap_start (trace s) ->
                  heapSamplerStarted (exec e s) = true ->
                  heapProfilingTimer (exec e s) <> None).
  { intros Ht Hf Hs. rewrite Ht. apply Hinv.
    destruct (heapSamplerStarted s) eqn:E; [reflexivity|].
    apply started_filter in E. rewrite <- Hf in E.
    apply started_filter in E. congruence. }
  destruct e; simpl in He; try discriminate He;
    try (match goal with
         | |- heapSamplerStarted (exec ?e ?s0) = true -> _ =>
             destruct (exec_heap_fields e s0) as (Ht & _ & Hf)
         end; now apply Hsame).
  destruct (lookup mid (mappers s)) as [[|]|] eqn:Hl;
    try (destruct (heap_mapper_other s mid r) as (Ht & _ & Hf);
         [intros m _; rewrite Hl; discriminate | now apply Hsame]).
  destruct r as [m|reason].
  2: { destruct (heap_mapper_other s mid (Rejected reason)) as (Ht & _ & Hf);
         [discriminate | now apply Hsame]. }
  rewrite (heap_mapper_fulfilled s mid m Hl).
  destruct (heapSamplerStarted s) eqn:Hs.
  - intros _. cbn. now apply Hinv.
  - intros _. cbn. discriminate.
Qed.

Lemma run_started_has_handle (es : list Event) (s : State) :
  Forall (fun e => is_stop_heap e = false) es ->
  (heapSamplerStarted s = true -> heapProfilingTimer s <> None) ->
  heapSamplerStarted (run es s) = true -> heapProfilingTimer (run es s) <> None.
Proof.
  intros Hq. revert s. induction Hq as [|e es He _ IH]; intros s Hinv; [exact Hinv|].
  rewrite run_cons. apply IH. now apply exec_started_has_handle.
Qed.

(** C4: a [startHeapProfiling] call that finds the timer handle returns
    [false] at once and changes nothing: no error, no second timer, no new
    start of the heap sampler.  In every history at most one timer is active
    and the sampler is started at most once, the handle naming the timer
    when there is one; and in a history without [stopHeapProfiling], once a
    start call has started the sampler there is exactly one timer, however
    many start calls were made.  Two calls made before the source mapper of
    the first is ready both pass the guard, but the sampler refuses the
    second start: that call is rejected before [setInterval], and the one
    timer of the first call remains. *)
Theorem C4_heap_start_idempotent :
  (forall tags s t, heapProfilingTimer s = Some t ->
     startHeapProfiling tags s = (ReturnsFalse, s)
     /\ exec (CallStartHeapProfiling tags) s = s)
  /\ (forall es,
        List.length (intervals (run es initial)) <= 1
        /\ List.length (filter is_heap_start (trace (run es initial))) <= 1
        /\ (forall t, heapProfilingTimer (run es initial) = Some t ->
              exists m, intervals (run es initial) = [(t, m)]))
  /\ (forall es, Forall (fun e => is_stop_heap e = false) es ->
        (heapSamplerStarted (run es initial) = true <->
         exists t m, heapProfilingTimer (run es initial) = Some t
                     /\ intervals (run es initial) = [(t, m)]))
  /\ (intervals (run double_heap_start initial) = [(2, SourceMapperObject 0)]
      /\ heapProfilingTimer (run double_heap_start initial) = Some 2
      /\ filter is_rejection (trace (run double_heap_start initial))
         = [Rejection StartHeapProfilingCall]).
Proof.
  split; [|split; [|split]].
  - intros tags s t Ht. now apply startHeapProfiling_running with t.
  - intros es. pose proof (run_heap_once es initial heap_once_initial) as H.
    unfold heap_once in H.
    destruct (heapProfilingTimer (run es initial)) as [t|].
    + destruct H as [[m Hi] Hone]. rewrite Hi, Hone. simpl.
      split; [lia|]. split; [lia|].
      intros t' Ht'. inversion Ht'; subst. now exists m.
    + destruct H as [Hi Hle]. rewrite Hi. simpl.
      split; [lia|]. split; [exact Hle|]. discriminate.
  - intros es Hq. pose proof (run_heap_once es initial heap_once_initial) as H.
    unfold heap_once in H. split.
    + intros Hs.
      assert (Hh : heapProfilingTimer (run es initial) <> None).
      { apply (run_started_has_handle es initial Hq); [discriminate | exact Hs]. }
      destruct (heapProfilingTimer (run es initial)) as [t|]; [|contradiction].
      destruct H as [[m Hi] _]. now exists t, m.
    + intros (t & m & Ht & _). rewrite Ht in H. destruct H as [_ Hone].
      destruct (heapSamplerStarted (run es initial)) eqn:E; [reflexivity|].
      apply started_filter in E. rewrite E in Hone. discriminate.
  - repeat split; vm_compute; reflexivity.
Qed.

Lemma C4_heap_start_idempotent_witness :
  heapProfilingTimer
    (run [ CallStartHeapProfiling [];
           SourceMapperSettles 0 (Fulfilled (SourceMapperObject 0)) ] initial)
  = Some 1
  /\ exec (CallStartHeapProfiling [])
       (run [ CallStartHeapProfiling [];
              SourceMapperSettles 0 (Fulfilled (SourceMapperObject 0)) ] initial)
     = run [ CallStartHeapProfiling [];
             SourceMapperSettles 0 (Fulfilled (SourceMapperObject 0)) ] initial.
Proof.
  assert (H : heapProfilingTimer
    (run [ CallStartHeapProfiling [];
           SourceMapperSettles 0 (Fulfilled (SourceMapperObject 0)) ] initial)
    = Some 1) by (vm_compute; reflexivity).
  split; [exact H|].
  exact (proj2 (proj1 C4_heap_start_idempotent [] _ 1 H)).
Defined.

(** ** CPU profiling loop *)

Lemma lookup_app_some {A : Type} (i : nat) (l l' : list (nat * A)) (a : A) :
  lookup i l = Some a -> lookup i (l ++ l') = Some a.
Proof.
  induction l as [|[j b] l IH]; simpl; intros H.
  - discriminate.
  - destruct (Nat.eqb j i); [exact H | now apply IH].
Qed.

Lemma lookup_remove_other {A : Type} (i j : nat) (l : list (nat * A)) :
  Nat.eqb j i = false -> lookup i (remove j l) = lookup i l.
Proof.
  intros Hne. unfold remove. induction l as [|[k b] l IH]; simpl.
  - reflexivity.
  - destruct (Nat.eqb k j) eqn:Ekj; simpl.
    + apply Nat.eqb_eq in Ekj. subst k. now rewrite Hne.
    + destruct (Nat.eqb k i); [reflexivity | exact IH].
Qed.

Lemma lookup_in {A : Type} (i : nat) (l : list (nat * A)) (a : A) :
  lookup i l = Some a -> In (i, a) l.
Proof.
  induction l as [|[j b] l IH]; simpl; intros H.
  - discriminate.
  - destruct (Nat.eqb j i) eqn:E.
    + apply Nat.eqb_eq in E. inversion H; subst. now left.
    + right. now apply IH.
Qed.

(** A capture under way stays so until its own promise settles. *)
Lemma exec_keeps_capture (e : Event) (s : State) (cid l : nat) :
  settles cid e = false ->
  lookup cid (captures s) = Some l ->
  lookup cid (captures (exec e s)) = Some l.
Proof.
  intros Hs Hl. destruct e; simpl in Hs; run_handler;
    try assumption; try (now apply lookup_app_some).
  all: now rewrite lookup_remove_other.
Qed.

(** While the flag is off and nothing starts the loop again, no round is
    scheduled. *)
Lemma exec_stopped (e : Event) (s : State) :
  starts_cpu e = false ->
  isCpuProfilingRunning s = false ->
  isCpuProfilingRunning (exec e s) = false
  /\ filter is_set_immediate (trace (exec e s)) = filter is_set_immediate (trace s).
Proof.
  intros Hq Hoff.
  destruct e; simpl in Hq; try discriminate Hq;
    try (destruct a; simpl in Hq; try rewrite Hq);
    unfold_module; cbn; rewrite ?Hoff; cbn; try rewrite ?Hq; cbn;
    repeat (break_match; cbn);
    try discriminate;
    rewrite ?filter_app; cbn; rewrite ?app_nil_r; auto.
Qed.

Lemma run_stopped (es : list Event) (s : State) :
  Forall (fun e => starts_cpu e = false) es ->
  isCpuProfilingRunning s = false ->
  isCpuProfilingRunning (run es s) = false
  /\ filter is_set_immediate (trace (run es s)) = filter is_set_immediate (trace s).
Proof.
  intros Hq. revert s. induction Hq as [|e es He _ IH]; intros s Hoff.
  - now split.
  - rewrite run_cons. destruct (exec_stopped e s He Hoff) as [Hoff' Hsame].
    destruct (IH _ Hoff') as [Hoff'' Hsame'']. split; [exact Hoff''|].
    now rewrite Hsame''.
Qed.

Lemma run_keeps_capture (es : list Event) (s : State) (cid l : nat) :
  Forall (fun e => settles cid e = false) es ->
  lookup cid (captures s) = Some l ->
  lookup cid (captures (run es s)) = Some l.
Proof.
  intros Hq. revert s. induction Hq as [|e es He _ IH]; intros s Hl.
  - exact Hl.
  - rewrite run_cons. apply IH. now apply exec_keeps_capture.
Qed.

(** The continuation of a capture, run with the flag off. *)
Lemma settle_when_stopped (s : State) (cid l : nat) (p : Profile) :
  lookup cid (captures s) = Some l ->
  isCpuProfilingRunning s = false ->
  exec (TimeProfileSettles cid (Fulfilled p)) s
  = set_trace (fun t => t ++ [ TimeProfileSettled l cid true;
                               Log ["CPU Profile collected"];
                               Log ["CPU Profile uploading"];
                               Encode (fresh s) p ])
      (set_encodes (fun q => q ++ [(fresh s, (CpuRound, p))])
         (set_fresh (S (fresh s))
            (set_captures (remove cid) s))).
Proof.
  intros Hl Hoff. unfold_module. cbn. rewrite Hl. cbn. rewrite Hoff.
  same_state.
Qed.

(** The continuation of a capture, run with the flag on. *)
Lemma settle_when_running (s : State) (cid l : nat) (p : Profile) :
  lookup cid (captures s) = Some l ->
  isCpuProfilingRunning s = true ->
  exec (TimeProfileSettles cid (Fulfilled p)) s
  = set_trace (fun t => t ++ [ TimeProfileSettled l cid true;
                               Log ["CPU Profile collected"];
                               SetImmediate l;
                               Log ["CPU Profile uploading"];
                               Encode (fresh s) p ])
      (set_encodes (fun q => q ++ [(fresh s, (CpuRound, p))])
         (set_fresh (S (fresh s))
            (set_immediates (fun q => q ++ [l])
               (set_captures (remove cid) s)))).
Proof.
  intros Hl Hon. unfold_module. cbn. rewrite Hl. cbn. rewrite Hon.
  same_state.
Qed.

(** C7: [stopCpuProfiling], called while the capture [cid] of a round is
    under way, only sets the flag to false.  Whatever happens next, as long as
    nothing starts the loop again, the capture stays pending; when it is
    fulfilled its continuation still hands the profile to [uploadProfile]
    (the encoding is begun), and neither then nor at any later turn is a
    round scheduled. *)
Theorem C7_stop_is_eventual
  (s : State) (cid l : nat) (es : list Event) (p : Profile)
  (Hflight : lookup cid (captures s) = Some l)
  (Hquiet : Forall (fun e => starts_cpu e = false) es)
  (Hpending : Forall (fun e => settles cid e = false) es) :
  exec CallStopCpuProfiling s = set_isCpuProfilingRunning false s
  /\ lookup cid (captures (run es (exec CallStopCpuProfiling s))) = Some l
  /\ isCpuProfilingRunning (run es (exec CallStopCpuProfiling s)) = false
  /\ (let s2 := run es (exec CallStopCpuProfiling s) in
      let s3 := exec (TimeProfileSettles cid (Fulfilled p)) s2 in
      trace s3 = trace s2 ++ [ TimeProfileSettled l cid true;
                               Log ["CPU Profile collected"];
                               Log ["CPU Profile uploading"];
                               Encode (fresh s2) p ]
      /\ encodes s3 = encodes s2 ++ [(fresh s2, (CpuRound, p))]
      /\ immediates s3 = immediates s2
      /\ forall es', Forall (fun e => starts_cpu e = false) es' ->
           filter is_set_immediate (trace (run es' s3))
           = filter is_set_immediate (trace s)).
Proof.
  assert (Hoff1 : isCpuProfilingRunning (exec CallStopCpuProfiling s) = false)
    by reflexivity.
  assert (Hl1 : lookup cid (captures (exec CallStopCpuProfiling s)) = Some l)
    by exact Hflight.
  assert (Hstop : exec CallStopCpuProfiling s = set_isCpuProfilingRunning false s)
    by reflexivity.
  assert (Htr1 : trace (exec CallStopCpuProfiling s) = trace s) by reflexivity.
  destruct (run_stopped es _ Hquiet Hoff1) as [Hoff2 Hsame2].
  pose proof (run_keeps_capture es _ cid l Hpending Hl1) as Hl2.
  rewrite Htr1 in Hsame2. clear Htr1 Hoff1 Hl1.
  split; [exact Hstop|]. split; [exact Hl2|]. split; [exact Hoff2|].
  cbv zeta.
  generalize dependent (run es (exec CallStopCpuProfiling s)). intros s2 Hoff2 Hsame2 Hl2.
  pose proof (settle_when_stopped s2 cid l p Hl2 Hoff2) as Hs3.
  assert (Hoff3 : isCpuProfilingRunning (exec (TimeProfileSettles cid (Fulfilled p)) s2) = false)
    by (rewrite Hs3; exact Hoff2).
  assert (Htr3 : trace (exec (TimeProfileSettles cid (Fulfilled p)) s2)
                 = trace s2 ++ [ TimeProfileSettled l cid true;
                                 Log ["CPU Profile collected"];
                                 Log ["CPU Profile uploading"];
                                 Encode (fresh s2) p ])
    by (rewrite Hs3; reflexivity).
  split; [exact Htr3|].
  split; [rewrite Hs3; reflexivity|]. split; [rewrite Hs3; reflexivity|].
  intros es' Hq'.
  destruct (run_stopped es' _ Hq' Hoff3) as [_ Hsame3].
  rewrite Hsame3, Htr3, filter_app. simpl filter at 2.
  rewrite app_nil_r. exact Hsame2.
Qed.

Lemma C7_stop_is_eventual_witness :
  lookup 1 (captures (run [CallStartCpuProfiling []] initial)) = Some 0
  /\ Forall (fun e => starts_cpu e = false) [CallStartHeapProfiling []]
  /\ Forall (fun e => settles 1 e = false) [CallStartHeapProfiling []]
  /\ isCpuProfilingRunning
       (run [CallStartHeapProfiling []]
          (exec CallStopCpuProfiling (run [CallStartCpuProfiling []] initial)))
     = false.
Proof.
  assert (H1 : lookup 1 (captures (run [CallStartCpuProfiling []] initial)) = Some 0)
    by (vm_compute; reflexivity).
  assert (H2 : Forall (fun e => starts_cpu e = false) [CallStartHeapProfiling []])
    by (repeat constructor).
  assert (H3 : Forall (fun e => settles 1 e = false) [CallStartHeapProfiling []])
    by (repeat constructor).
  split; [exact H1|]. split; [exact H2|]. split; [exact H3|].
  exact (proj1 (proj2 (proj2
    (C7_stop_is_eventual _ 1 0 [CallStartHeapProfiling []] fake_profile H1 H2 H3)))).
Defined.

(** The results of the upload pipeline, good or bad, leave the loop alone. *)
Lemma exec_upload_event (e : Event) (s : State) :
  is_upload_event e = true ->
  immediates (exec e s) = immediates s
  /\ isCpuProfilingRunning (exec e s) = isCpuProfilingRunning s
  /\ captures (exec e s) = captures s.
Proof.
  intros Hu. destruct e; simpl in Hu; try discriminate Hu;
    run_handler; repeat split.
Qed.

Lemma run_upload_events (es : list Event) (s : State) :
  Forall (fun e => is_upload_event e = true) es ->
  immediates (run es s) = immediates s
  /\ isCpuProfilingRunning (run es s) = isCpuProfilingRunning s
  /\ captures (run es s) = captures s.
Proof.
  intros Hu. revert s. induction Hu as [|e es He _ IH]; intros s.
  - repeat split.
  - rewrite run_cons. destruct (IH (exec e s)) as (Hi & Hr & Hc).
    destruct (exec_upload_event e s He) as (Hi' & Hr' & Hc').
    rewrite Hi, Hr, Hc. now repeat split.
Qed.

(** The callback at the head of the queue begins a round of its loop. *)
Lemma exec_immediate (s : State) (l : nat) (rest : list nat) :
  immediates s = l :: rest ->
  immediates (exec Immediate s) = rest
  /\ captures (exec Immediate s) = captures s ++ [(fresh s, l)]
  /\ fresh (exec Immediate s) = S (fresh s)
  /\ trace (exec Immediate s)
     = trace s ++ [ Log ["Collecting CPU Profile"];
                    TimeProfile l (fresh s)
                      {| lineNumbers := true;
                         sourceMapper := sm (config s);
                         durationMillis := INTERVAL;
                         intervalMicros := 10000 |} ].
Proof.
  intros Hq. unfold_module. cbn. rewrite Hq. cbn.
  rewrite <- ?app_assoc. repeat split.
Qed.

(** Emptying the queue begins a round for each callback in it, in order. *)
Lemma run_immediates (q : list nat) (s : State) :
  immediates s = q ->
  immediates (run (repeat Immediate (List.length q)) s) = []
  /\ map snd (captures (run (repeat Immediate (List.length q)) s))
     = map snd (captures s) ++ q.
Proof.
  revert s. induction q as [|l rest IH]; intros s Hq.
  - simpl. rewrite app_nil_r. now split.
  - simpl List.length. simpl repeat. rewrite run_cons.
    destruct (exec_immediate s l rest Hq) as (Hi & Hc & _).
    destruct (IH _ Hi) as (Hi' & Hc'). split; [exact Hi'|].
    rewrite Hc', Hc, map_app. simpl. now rewrite <- app_assoc.
Qed.

(** C8: in the running state the continuation of a capture schedules the
    next round before it hands the profile to [uploadProfile]; whatever the
    upload pipeline reports afterwards, failures included, the callback stays
    in the queue, the flag stays on, and when the event loop has run the queue
    the next capture of that loop is under way. *)
Theorem C8_upload_outcome_does_not_stop_loop
  (s : State) (cid l : nat) (p : Profile) (es : list Event)
  (Hflight : lookup cid (captures s) = Some l)
  (Hon : isCpuProfilingRunning s = true)
  (Hup : Forall (fun e => is_upload_event e = true) es) :
  let s1 := exec (TimeProfileSettles cid (Fulfilled p)) s in
  let s2 := run es s1 in
  let s3 := run (repeat Immediate (S (List.length (immediates s)))) s2 in
  trace s1 = trace s ++ [ TimeProfileSettled l cid true;
                          Log ["CPU Profile collected"];
                          SetImmediate l;
                          Log ["CPU Profile uploading"];
                          Encode (fresh s) p ]
  /\ immediates s1 = immediates s ++ [l]
  /\ immediates s2 = immediates s ++ [l]
  /\ isCpuProfilingRunning s2 = true
  /\ captures s2 = captures s1
  /\ immediates s3 = []
  /\ map snd (captures s3) = map snd (captures s1) ++ immediates s ++ [l].
Proof.
  intros s1 s2 s3.
  pose proof (settle_when_running s cid l p Hflight Hon) as Hs1. fold s1 in Hs1.
  assert (Ht1 : trace s1 = trace s ++ [ TimeProfileSettled l cid true;
                                        Log ["CPU Profile collected"];
                                        SetImmediate l;
                                        Log ["CPU Profile uploading"];
                                        Encode (fresh s) p ])
    by (rewrite Hs1; reflexivity).
  assert (Hi1 : immediates s1 = immediates s ++ [l]) by (rewrite Hs1; reflexivity).
  assert (Hr1 : isCpuProfilingRunning s1 = true) by (rewrite Hs1; exact Hon).
  destruct (run_upload_events es s1 Hup) as (Hi2 & Hr2 & Hc2). fold s2 in Hi2, Hr2, Hc2.
  rewrite Hi1 in Hi2. rewrite Hr1 in Hr2.
  destruct (run_immediates (immediates s ++ [l]) s2 Hi2) as (Hi3 & Hc3).
  replace (List.length (immediates s ++ [l])) with (S (List.length (immediates s)))
    in Hi3, Hc3 by (rewrite length_app; simpl; lia).
  fold s3 in Hi3, Hc3. rewrite Hc2 in Hc3.
  repeat split; assumption.
Qed.

Lemma C8_upload_outcome_does_not_stop_loop_witness :
  lookup 1 (captures (run [CallStartCpuProfiling []] initial)) = Some 0
  /\ isCpuProfilingRunning (run [CallStartCpuProfiling []] initial) = true
  /\ Forall (fun e => is_upload_event e = true)
       [ EncodeSettles 2 (Fulfilled fake_bytes);
         AxiosSettles 3 (Rejected {| response := None; request := true;
                                     message := "socket hang up" |}) ]
  /\ isCpuProfilingRunning
       (run [ EncodeSettles 2 (Fulfilled fake_bytes);
              AxiosSettles 3 (Rejected {| response := None; request := true;
                                          message := "socket hang up" |}) ]
          (exec (TimeProfileSettles 1 (Fulfilled fake_profile))
             (run [CallStartCpuProfiling []] initial)))
     = true.
Proof.
  assert (H1 : lookup 1 (captures (run [CallStartCpuProfiling []] initial)) = Some 0)
    by (vm_compute; reflexivity).
  assert (H2 : isCpuProfilingRunning (run [CallStartCpuProfiling []] initial) = true)
    by (vm_compute; reflexivity).
  assert (H3 : Forall (fun e => is_upload_event e = true)
       [ EncodeSettles 2 (Fulfilled fake_bytes);
         AxiosSettles 3 (Rejected {| response := None; request := true;
                                     message := "socket hang up" |}) ])
    by (repeat constructor).
  split; [exact H1|]. split; [exact H2|]. split; [exact H3|].
  exact (proj1 (proj2 (proj2 (proj2
    (C8_upload_outcome_does_not_stop_loop _ 1 0 fake_profile _ H1 H2 H3))))).
Defined.

(** *** Rounds of one loop never overlap *)

Lemma fold_round_none (l : nat) (t : list Obs) :
  fold_left (round_step l) t None = None.
Proof.
  induction t as [|o t IH]; simpl; [reflexivity|].
  destruct o; simpl; try exact IH; destruct (Nat.eqb loop l); exact IH.
Qed.

Lemma fold_round_ended (l : nat) (t : list Obs) :
  fold_left (round_step l) t (Some Ended) <> Some Idle.
Proof.
  induction t as [|o t IH]; simpl; [discriminate|].
  destruct o; simpl; try exact IH; destruct (Nat.eqb loop l); try exact IH;
    rewrite fold_round_none; discriminate.
Qed.

Lemma fold_round_quiet (l : nat) (t : list Obs) (st : option RoundState) :
  Forall (fun o => is_capture_obs o = false) t ->
  fold_left (round_step l) t st = st.
Proof.
  intros Hq. induction Hq as [|o t Ho _ IH]; simpl; [reflexivity|].
  destruct o; simpl in Ho; try discriminate Ho; exact IH.
Qed.

Lemma rounds_app (l : nat) (t t' : list Obs) :
  rounds l (t ++ t') = fold_left (round_step l) t' (rounds l t).
Proof. apply fold_left_app. Qed.

(** A capture under way gives way to an idle loop only by being fulfilled. *)
Lemma capturing_to_idle (l cid : nat) (t : list Obs) :
  fold_left (round_step l) t (Some (Capturing cid)) = Some Idle ->
  In (TimeProfileSettled l cid true) t.
Proof.
  induction t as [|o t IH]; simpl; intros H; [discriminate|].
  destruct o; simpl in H; try (right; now apply IH).
  - destruct (Nat.eqb loop l).
    + rewrite fold_round_none in H. discriminate.
    + right. now apply IH.
  - destruct (Nat.eqb loop l) eqn:El; [|right; now apply IH].
    destruct (Nat.eqb cid0 cid) eqn:Ec.
    + apply Nat.eqb_eq in El, Ec. subst. destruct fulfilled.
      * now left.
      * now apply fold_round_ended in H.
    + rewrite fold_round_none in H. discriminate.
Qed.

(** In a history that [rounds] accepts, between two captures of a loop the
    first one has been fulfilled. *)
Lemma rounds_between (l c1 c2 : nat) (o1 o2 : TimeProfileOptions)
  (pre mid post : list Obs) :
  rounds l (pre ++ TimeProfile l c1 o1 :: mid ++ TimeProfile l c2 o2 :: post) <> None ->
  In (TimeProfileSettled l c1 true) mid.
Proof.
  intros H. rewrite rounds_app in H. simpl in H. rewrite Nat.eqb_refl in H.
  destruct (rounds l pre) as [[| |]|];
    try (rewrite fold_round_none in H; now contradiction H).
  rewrite fold_left_app in H. simpl in H. rewrite Nat.eqb_refl in H.
  destruct (fold_left (round_step l) mid (Some (Capturing c1))) as [[| |]|] eqn:E;
    try (rewrite fold_round_none in H; now contradiction H).
  now apply capturing_to_idle.
Qed.

Lemma of_loop_app (l : nat) (c c' : list (nat * nat)) :
  of_loop l (c ++ c') = of_loop l c ++ of_loop l c'.
Proof. apply filter_app. Qed.

Lemma of_loop_remove (l cid : nat) (c : list (nat * nat)) :
  of_loop l (remove cid c) = remove cid (of_loop l c).
Proof.
  unfold of_loop, remove. induction c as [|[i k] c IH]; simpl; [reflexivity|].
  destruct (Nat.eqb i cid) eqn:Ei, (Nat.eqb k l) eqn:Ek; simpl;
    rewrite ?Ei, ?Ek; simpl; rewrite ?IH; reflexivity.
Qed.

Lemma of_loop_in (l i k : nat) (c : list (nat * nat)) :
  In (i, k) c -> k = l -> In (i, l) (of_loop l c).
Proof.
  intros Hin ->. unfold of_loop. apply filter_In. split; [exact Hin|].
  simpl. apply Nat.eqb_refl.
Qed.

Lemma of_loop_incl (l : nat) (x : nat * nat) (c : list (nat * nat)) :
  In x (of_loop l c) -> In x c.
Proof. unfold of_loop. intros H. now apply filter_In in H. Qed.

Lemma map_fst_remove (cid : nat) (c : list (nat * nat)) :
  map fst (remove cid c) = filter (fun i => negb (Nat.eqb i cid)) (map fst c).
Proof.
  unfold remove. induction c as [|[i k] c IH]; simpl; [reflexivity|].
  destruct (Nat.eqb i cid); simpl; now rewrite IH.
Qed.

(** A number names one pending capture. *)
Lemma one_capture_per_id (c : list (nat * nat)) (i a b : nat) :
  NoDup (map fst c) -> In (i, a) c -> In (i, b) c -> a = b.
Proof.
  induction c as [|[j k] c IH]; simpl; intros Hnd Ha Hb; [contradiction|].
  inversion Hnd as [|? ? Hnotin Hnd']; subst.
  destruct Ha as [Ha|Ha], Hb as [Hb|Hb].
  - congruence.
  - inversion Ha; subst. exfalso. apply Hnotin. now apply (in_map fst) in Hb.
  - inversion Hb; subst. exfalso. apply Hnotin. now apply (in_map fst) in Ha.
  - now apply IH.
Qed.

Lemma scheduled_eq (l : nat) (s s' : State) :
  immediates s' = immediates s -> scheduled l s' = scheduled l s.
Proof. unfold scheduled. now intros ->. Qed.

Lemma cpu_inv_initial : cpu_inv initial.
Proof.
  split; [split; [|split]|].
  - intros l _. now split.
  - constructor.
  - constructor.
  - intros l. unfold loop_inv. simpl. split; [reflexivity|]. unfold scheduled. simpl. lia.
Qed.

(** Turns that leave the loops alone keep the invariant. *)
Lemma cpu_inv_frame (s s' : State) :
  cpu_frame s s' -> cpu_inv s -> cpu_inv s'.
Proof.
  intros (Hc & Hi & Hf & t & Ht & Hq) [(Hfresh & Hlt & Hnd) Hloops].
  assert (Hr : forall l, rounds l (trace s') = rounds l (trace s)).
  { intros l. rewrite Ht, rounds_app. now apply fold_round_quiet. }
  split; [split; [|split]|].
  - intros l Hl. rewrite Hr, (scheduled_eq l s s' Hi). apply Hfresh. lia.
  - rewrite Hc. eapply Forall_impl; [|exact Hlt]. simpl. intros x Hx. lia.
  - now rewrite Hc.
  - intros l. unfold loop_inv. rewrite Hr, Hc, (scheduled_eq l s s' Hi). apply Hloops.
Qed.

(** What the loop [l] holds when one of its captures is pending. *)
Lemma pending_is_capturing (s : State) (cid l : nat) :
  cpu_inv s ->
  lookup cid (captures s) = Some l ->
  rounds l (trace s) = Some (Capturing cid)
  /\ of_loop l (captures s) = [(cid, l)]
  /\ scheduled l s = 0
  /\ l < fresh s.
Proof.
  intros [(Hfresh & _ & _) Hloops] Hl.
  assert (Hin : In (cid, l) (of_loop l (captures s))).
  { apply (of_loop_in l cid l); [apply lookup_in; exact Hl | reflexivity]. }
  specialize (Hloops l). unfold loop_inv in Hloops.
  destruct (rounds l (trace s)) as [[|c0|]|] eqn:Er; try contradiction;
    destruct Hloops as [Hof Hs]; rewrite Hof in Hin; simpl in Hin;
    try contradiction.
  destruct Hin as [Hin|[]]. inversion Hin; subst c0.
  repeat split; try assumption.
  destruct (Nat.lt_ge_cases l (fresh s)) as [Hlt|Hge]; [exact Hlt|].
  destruct (Hfresh l Hge) as [Hidle _]. congruence.
Qed.

(** A round of loop [l] begins while the loop is idle. *)
Lemma cpu_inv_begin (s s' : State) (l cid : nat) (opts : TimeProfileOptions)
  (t : list Obs) :
  cpu_inv s ->
  captures s' = captures s ++ [(cid, l)] ->
  fresh s <= cid -> cid < fresh s' -> l < fresh s' ->
  trace s' = trace s ++ t ++ [TimeProfile l cid opts] ->
  Forall (fun o => is_capture_obs o = false) t ->
  rounds l (trace s) = Some Idle ->
  scheduled l s' = 0 ->
  (forall l', l' <> l -> scheduled l' s' = scheduled l' s) ->
  cpu_inv s'.
Proof.
  intros [(Hfresh & Hlt & Hnd) Hloops] Hc Hge Hcid Hl Ht Hq Hidle Hs0 Hso.
  assert (Hr : forall l', rounds l' (trace s')
                          = round_step l' (rounds l' (trace s)) (TimeProfile l cid opts)).
  { intros l'. rewrite Ht, rounds_app, fold_left_app, (fold_round_quiet l' t _ Hq).
    reflexivity. }
  split; [split; [|split]|].
  - intros l' Hl'. assert (Hne : l' <> l) by lia.
    rewrite Hr. simpl. replace (Nat.eqb l l') with false
      by (symmetry; apply Nat.eqb_neq; lia).
    rewrite (Hso l' Hne). apply Hfresh. lia.
  - rewrite Hc. apply Forall_app. split.
    + eapply Forall_impl; [|exact Hlt]. simpl. intros x Hx. lia.
    + constructor; [exact Hcid | constructor].
  - rewrite Hc, map_app. apply NoDup_app; [exact Hnd | repeat constructor; intros [] |].
    intros a Hin [Ha|[]]. simpl in Ha. subst a.
    apply in_map_iff in Hin. destruct Hin as (x & Hx & Hin).
    rewrite Forall_forall in Hlt. specialize (Hlt x Hin). lia.
  - intros l'. unfold loop_inv. rewrite Hr. simpl.
    destruct (Nat.eqb l l') eqn:E.
    + apply Nat.eqb_eq in E. subst l'. rewrite Hidle.
      specialize (Hloops l). unfold loop_inv in Hloops. rewrite Hidle in Hloops.
      destruct Hloops as [Hof _]. split; [|exact Hs0].
      rewrite Hc, of_loop_app, Hof. simpl. now rewrite Nat.eqb_refl.
    + apply Nat.eqb_neq in E.
      specialize (Hloops l'). unfold loop_inv in Hloops.
      assert (Hof : of_loop l' (captures s') = of_loop l' (captures s)).
      { rewrite Hc, of_loop_app. simpl.
        replace (Nat.eqb l l') with false by (symmetry; now apply Nat.eqb_neq).
        apply app_nil_r. }
      rewrite Hof, (Hso l') by congruence. exact Hloops.
Qed.

(** The pending capture [cid] of loop [l] settles. *)
Lemma cpu_inv_settle (s s' : State) (l cid : nat) (ok : bool) (t : list Obs) :
  cpu_inv s ->
  lookup cid (captures s) = Some l ->
  captures s' = remove cid (captures s) ->
  fresh s <= fresh s' ->
  trace s' = trace s ++ TimeProfileSettled l cid ok :: t ->
  Forall (fun o => is_capture_obs o = false) t ->
  scheduled l s' <= (if ok then S (scheduled l s) else scheduled l s) ->
  (forall l', l' <> l -> scheduled l' s' = scheduled l' s) ->
  cpu_inv s'.
Proof.
  intros Hinv Hl Hc Hf Ht Hq Hs Hso.
  destruct (pending_is_capturing s cid l Hinv Hl) as (Hcap & Hof & Hs0 & Hlt).
  destruct Hinv as [(Hfresh & Hids & Hnd) Hloops].
  assert (Hr : forall l', rounds l' (trace s')
                          = round_step l' (rounds l' (trace s))
                              (TimeProfileSettled l cid ok)).
  { intros l'. rewrite Ht, rounds_app. simpl. now rewrite (fold_round_quiet l' t _ Hq). }
  split; [split; [|split]|].
  - intros l' Hl'. assert (Hne : l' <> l) by lia.
    rewrite Hr. simpl. replace (Nat.eqb l l') with false
      by (symmetry; apply Nat.eqb_neq; lia).
    rewrite (Hso l' Hne). apply Hfresh. lia.
  - rewrite Hc. apply Forall_forall. intros x Hx.
    apply filter_In in Hx. destruct Hx as [Hx _].
    rewrite Forall_forall in Hids. specialize (Hids x Hx). lia.
  - rewrite Hc, map_fst_remove. now apply NoDup_filter.
  - intros l'. unfold loop_inv. rewrite Hr, Hc, of_loop_remove. simpl.
    destruct (Nat.eqb l l') eqn:E.
    + apply Nat.eqb_eq in E. subst l'. rewrite Hcap, Nat.eqb_refl, Hof.
      rewrite Hs0 in Hs. unfold remove. simpl. rewrite Nat.eqb_refl. simpl.
      destruct ok; split; try reflexivity; lia.
    + apply Nat.eqb_neq in E.
      specialize (Hloops l'). unfold loop_inv in Hloops.
      rewrite (Hso l') by congruence.
      destruct (rounds l' (trace s)) as [[|c0|]|]; try contradiction;
        destruct Hloops as [Hof' Hs']; rewrite Hof'; try (now split).
      split; [|exact Hs'].
      unfold remove. simpl. destruct (Nat.eqb c0 cid) eqn:Ec; [|reflexivity].
      apply Nat.eqb_eq in Ec. subst c0. exfalso. apply E.
      apply (one_capture_per_id (captures s) cid l l' Hnd).
      * now apply lookup_in.
      * apply (of_loop_incl l'). rewrite Hof'. now left.
Qed.

(** Every event the loops do not react to leaves them alone. *)
Lemma exec_cpu_frame (e : Event) (s : State) :
  cpu_event e = false -> cpu_frame s (exec e s).
Proof.
  intros Hq. unfold cpu_frame.
  destruct e; simpl in Hq; try discriminate Hq;
    try (destruct a; simpl in Hq; try discriminate Hq);
    unfold_module; cbn; try rewrite ?Hq; cbn;
    repeat (break_match; cbn);
    (split; [reflexivity | split; [reflexivity | split; [lia|]]]);
    trace_tail; repeat constructor.
Qed.

(** Sequencing, read from the last action backwards. *)
Lemma seq_split {A B C : Type} (m : M A) (k1 : M B) (k2 : M C) (s : State) :
  snd ((m ;; k1 ;; k2 ;; ret tt) s)
  = snd ((k2 ;; ret tt) (snd (k1 (snd ((m ;; ret tt) s))))).
Proof. reflexivity. Qed.

(** [init] with [autoStart] is [init] without, then the two start calls. *)
Lemma init_autoStart (a : Arg PyroscopeConfig) (c : PyroscopeConfig) (s : State) :
  truthy_param init_default a = Some c ->
  autoStart c = true ->
  exec (CallInit a) s
  = exec (CallStartHeapProfiling [])
      (exec (CallStartCpuProfiling [])
         (exec (CallInit (Given (without_autoStart c))) s)).
Proof.
  intros Hc Ha. unfold exec, handle, init. rewrite Hc.
  change (truthy_param init_default (Given (without_autoStart c)))
    with (Some (without_autoStart c)).
  cbv beta iota zeta.
  change (autoStart (without_autoStart c)) with false.
  change (server (without_autoStart c)) with (server c).
  change (sourceMapPath (without_autoStart c)) with (sourceMapPath c).
  change (tags (without_autoStart c)) with (tags c).
  rewrite Ha. unfold when.
  apply seq_split.
Qed.

Lemma exec_start_cpu (tags : TagList) (s : State) :
  captures (exec (CallStartCpuProfiling tags) s)
  = captures s ++ [(S (fresh s), fresh s)]
  /\ immediates (exec (CallStartCpuProfiling tags) s) = immediates s
  /\ fresh (exec (CallStartCpuProfiling tags) s) = S (S (fresh s))
  /\ trace (exec (CallStartCpuProfiling tags) s)
     = trace s ++ [ Log ["Pyroscope has started CPU Profiling"];
                    Log ["Collecting CPU Profile"] ]
         ++ [ TimeProfile (fresh s) (S (fresh s))
                {| lineNumbers := true;
                   sourceMapper := sm (config s);
                   durationMillis := INTERVAL;
                   intervalMicros := 10000 |} ].
Proof.
  unfold_module. cbn. rewrite <- ?app_assoc. repeat split.
Qed.

Lemma exec_immediate_empty (s : State) :
  immediates s = [] -> exec Immediate s = s.
Proof. intros Hq. unfold_module. cbn. now rewrite Hq. Qed.

Lemma exec_settle_unknown (cid : nat) (r : Settled Profile string) (s : State) :
  lookup cid (captures s) = None -> exec (TimeProfileSettles cid r) s = s.
Proof. intros Hl. unfold_module. cbn. now rewrite Hl. Qed.

(** A capture that fails ends its loop. *)
Lemma settle_rejected (s : State) (cid l : nat) (reason : string) :
  lookup cid (captures s) = Some l ->
  exec (TimeProfileSettles cid (Rejected reason)) s
  = set_trace (fun t => t ++ [ TimeProfileSettled l cid false;
                               Rejection CpuRoundChain ])
      (set_captures (remove cid) s).
Proof.
  intros Hl. unfold_module. cbn. rewrite Hl. same_state.
Qed.

Lemma count_occ_snoc (q : list nat) (l l' : nat) :
  count_occ Nat.eq_dec (q ++ [l]) l'
  = count_occ Nat.eq_dec q l' + (if Nat.eq_dec l l' then 1 else 0).
Proof.
  rewrite count_occ_app. simpl. now destruct (Nat.eq_dec l l').
Qed.

Lemma cpu_inv_start (tags : TagList) (s : State) :
  cpu_inv s -> cpu_inv (exec (CallStartCpuProfiling tags) s).
Proof.
  intros Hinv. destruct (exec_start_cpu tags s) as (Hc & Hi & Hf & Ht).
  pose proof Hinv as [(Hfresh & _ & _) _].
  destruct (Hfresh (fresh s) (Nat.le_refl _)) as [Hidle Hs0].
  assert (Hs0' : scheduled (fresh s) (exec (CallStartCpuProfiling tags) s) = 0)
    by now rewrite (scheduled_eq _ s _ Hi).
  eapply (cpu_inv_begin s _ (fresh s) (S (fresh s))); try eassumption; try lia.
  - repeat constructor.
  - intros l' _. now apply scheduled_eq.
Qed.

Lemma cpu_inv_immediate (s : State) :
  cpu_inv s -> cpu_inv (exec Immediate s).
Proof.
  intros Hinv. destruct (immediates s) as [|l rest] eqn:Hq.
  - now rewrite exec_immediate_empty.
  - destruct (exec_immediate s l rest Hq) as (Hi & Hc & Hf & Ht).
    pose proof Hinv as [(Hfresh & _ & _) Hloops].
    assert (Hsl : scheduled l s = S (count_occ Nat.eq_dec rest l)).
    { unfold scheduled. rewrite Hq. simpl.
      destruct (Nat.eq_dec l l) as [_|N]; [reflexivity | contradiction]. }
    assert (Hidle : rounds l (trace s) = Some Idle /\ count_occ Nat.eq_dec rest l = 0).
    { specialize (Hloops l). unfold loop_inv in Hloops.
      destruct (rounds l (trace s)) as [[| |]|]; try contradiction;
        destruct Hloops as [_ Hs]; rewrite Hsl in Hs; try discriminate Hs.
      split; [reflexivity | lia]. }
    destruct Hidle as [Hidle Hrest].
    assert (Hlt : l < fresh s).
    { destruct (Nat.lt_ge_cases l (fresh s)) as [Hlt|Hge]; [exact Hlt|].
      destruct (Hfresh l Hge) as [_ H0]. rewrite Hsl in H0. discriminate. }
    eapply (cpu_inv_begin s _ l (fresh s) _ [Log ["Collecting CPU Profile"]]);
      try eassumption; try lia.
    + exact Ht.
    + repeat constructor.
    + unfold scheduled. now rewrite Hi.
    + intros l' Hne. unfold scheduled. rewrite Hi, Hq. simpl.
      destruct (Nat.eq_dec l l') as [Y|N]; [congruence | reflexivity].
Qed.

Lemma cpu_inv_time_profile (cid : nat) (r : Settled Profile string) (s : State) :
  cpu_inv s -> cpu_inv (exec (TimeProfileSettles cid r) s).
Proof.
  intros Hinv. destruct (lookup cid (captures s)) as [l|] eqn:Hl.
  2: now rewrite exec_settle_unknown.
  destruct r as [p|reason].
  - destruct (isCpuProfilingRunning s) eqn:Hrun.
    + rewrite (settle_when_running s cid l p Hl Hrun).
      apply (cpu_inv_settle s _ l cid true
               [ Log ["CPU Profile collected"]; SetImmediate l;
                 Log ["CPU Profile uploading"]; Encode (fresh s) p ]);
        try assumption; try reflexivity.
      * cbn. lia.
      * repeat constructor.
      * unfold scheduled. cbn. rewrite count_occ_snoc.
        destruct (Nat.eq_dec l l); lia.
      * intros l' Hne. unfold scheduled. cbn. rewrite count_occ_snoc.
        destruct (Nat.eq_dec l l'); [congruence | lia].
    + rewrite (settle_when_stopped s cid l p Hl Hrun).
      apply (cpu_inv_settle s _ l cid true
               [ Log ["CPU Profile collected"];
                 Log ["CPU Profile uploading"]; Encode (fresh s) p ]);
        try assumption; try reflexivity.
      * cbn. lia.
      * repeat constructor.
      * unfold scheduled. cbn. lia.
  - rewrite (settle_rejected s cid l reason Hl).
    apply (cpu_inv_settle s _ l cid false [Rejection CpuRoundChain]);
      try assumption; try reflexivity.
    repeat constructor.
Qed.

(** Every turn keeps the invariant of the CPU loops. *)
Lemma exec_cpu_inv (e : Event) (s : State) : cpu_inv s -> cpu_inv (exec e s).
Proof.
  intros Hinv. destruct (cpu_event e) eqn:He.
  2: { eapply cpu_inv_frame; [now apply exec_cpu_frame | exact Hinv]. }
  destruct e; simpl in He; try discriminate He.
  - destruct (truthy_param init_default a) as [c|] eqn:Hc; [|discriminate He].
    rewrite (init_autoStart a c s Hc He).
    eapply cpu_inv_frame; [now apply exec_cpu_frame|].
    apply cpu_inv_start.
    eapply cpu_inv_frame; [now apply exec_cpu_frame | exact Hinv].
  - now apply cpu_inv_start.
  - now apply cpu_inv_time_profile.
  - now apply cpu_inv_immediate.
Qed.

Lemma run_cpu_inv (es : list Event) (s : State) : cpu_inv s -> cpu_inv (run es s).
Proof.
  revert s. induction es as [|e es IH]; intros s Hinv; [exact Hinv|].
  rewrite run_cons. apply IH. now apply exec_cpu_inv.
Qed.

(** C6: in every history of the module, if the loop of one
    [profilingRound] closure begins a capture and later another, the first
    has been fulfilled in between: round N+1 never begins before the capture
    of round N has resolved.  At any moment the loop has at most one capture
    pending, and none while its callback waits in the [setImmediate] queue. *)
Theorem C6_rounds_do_not_overlap (es : list Event) (l : nat) :
  (forall c1 c2 o1 o2 pre mid post,
     trace (run es initial)
     = pre ++ TimeProfile l c1 o1 :: mid ++ TimeProfile l c2 o2 :: post ->
     In (TimeProfileSettled l c1 true) mid)
  /\ List.length (of_loop l (captures (run es initial)))
     + scheduled l (run es initial) <= 1.
Proof.
  pose proof (run_cpu_inv es initial cpu_inv_initial) as [_ Hloops].
  specialize (Hloops l). unfold loop_inv in Hloops. split.
  - intros c1 c2 o1 o2 pre mid post Ht.
    apply (rounds_between l c1 c2 o1 o2 pre mid post).
    rewrite <- Ht. intros Hnone. now rewrite Hnone in Hloops.
  - destruct (rounds l (trace (run es initial))) as [[| |]|]; try contradiction;
      destruct Hloops as [Hof Hs]; rewrite Hof; simpl; lia.
Qed.

Lemma C6_rounds_do_not_overlap_witness :
  trace (run two_rounds initial)
  = [ Log ["Pyroscope has started CPU Profiling"];
      Log ["Collecting CPU Profile"] ]
    ++ TimeProfile 0 1 {| lineNumbers := true; sourceMapper := None;
                          durationMillis := INTERVAL; intervalMicros := 10000 |}
    :: [ TimeProfileSettled 0 1 true;
         Log ["CPU Profile collected"];
         SetImmediate 0;
         Log ["CPU Profile uploading"];
         Encode 2 fake_profile;
         Log ["Collecting CPU Profile"] ]
    ++ TimeProfile 0 3 {| lineNumbers := true; sourceMapper := None;
                          durationMillis := INTERVAL; intervalMicros := 10000 |}
    :: []
  /\ In (TimeProfileSettled 0 1 true)
       [ TimeProfileSettled 0 1 true;
         Log ["CPU Profile collected"];
         SetImmediate 0;
         Log ["CPU Profile uploading"];
         Encode 2 fake_profile;
         Log ["Collecting CPU Profile"] ].
Proof.
  assert (H : trace (run two_rounds initial)
  = [ Log ["Pyroscope has started CPU Profiling"];
      Log ["Collecting CPU Profile"] ]
    ++ TimeProfile 0 1 {| lineNumbers := true; sourceMapper := None;
                          durationMillis := INTERVAL; intervalMicros := 10000 |}
    :: [ TimeProfileSettled 0 1 true;
         Log ["CPU Profile collected"];
         SetImmediate 0;
         Log ["CPU Profile uploading"];
         Encode 2 fake_profile;
         Log ["Collecting CPU Profile"] ]
    ++ TimeProfile 0 3 {| lineNumbers := true; sourceMapper := None;
                          durationMillis := INTERVAL; intervalMicros := 10000 |}
    :: []) by (vm_compute; reflexivity).
  split; [exact H|].
  exact (proj1 (C6_rounds_do_not_overlap two_rounds 0) _ _ _ _ _ _ _ H).
Defined.

(** * Further properties of the module *)

(** ** What [init] does to the configuration *)

Lemma config_ext (c c' : PyroscopeConfig) :
  server c = server c' ->
  name c = name c' ->
  sourceMapPath c = sourceMapPath c' ->
  autoStart c = autoStart c' ->
  sm c = sm c' ->
  tags c = tags c' ->
  c = c'.
Proof.
  destruct c, c'; simpl; intros; subst; reflexivity.
Qed.

Lemma init_config (a : Arg PyroscopeConfig) (c : PyroscopeConfig) (s : State) :
  truthy_param init_default a = Some c ->
  config (exec (CallInit a) s) = configured c (config s).
Proof.
  intros Hc. apply config_ext; unfold exec, handle, init; rewrite Hc;
    run_handler; reflexivity.
Qed.

(** X1: [init], given a configuration [c], replaces the tags (no merge with
    the old ones) and the source map paths, sets the server, and leaves the
    name, the [autoStart] field and the source mapper of the global
    configuration as they were: a mapper built for earlier paths stays in
    use even when [c] has no paths. *)
Theorem X1_init_overwrites_tags_keeps_mapper
  (a : Arg PyroscopeConfig) (c : PyroscopeConfig) (s : State)
  (Hc : truthy_param init_default a = Some c) :
  tags (config (exec (CallInit a) s)) = tags c
  /\ sourceMapPath (config (exec (CallInit a) s)) = sourceMapPath c
  /\ sm (config (exec (CallInit a) s)) = sm (config s)
  /\ autoStart (config (exec (CallInit a) s)) = autoStart (config s)
  /\ config (exec (CallInit a) s) = configured c (config s).
Proof.
  rewrite (init_config a c s Hc). repeat split.
Qed.

Lemma X1_init_overwrites_tags_keeps_mapper_witness :
  truthy_param init_default (Given scenario_config) = Some scenario_config
  /\ tags (config (exec (CallInit (Given scenario_config))
                     (exec (CallInit (Given init_default)) initial)))
     = [("env", "prod")].
Proof.
  split; [reflexivity|].
  exact (proj1 (X1_init_overwrites_tags_keeps_mapper
                  (Given scenario_config) scenario_config _ eq_refl)).
Defined.

(** ** Requests *)

Lemma or_default_not_empty (x : option string) (d : string) :
  d <> "" -> or_default x d <> "".
Proof.
  intros Hd. destruct x as [[|a x]|]; simpl; try exact Hd. discriminate.
Qed.

(** Only [init] assigns the server, and never an empty one. *)
Lemma exec_server (e : Event) (s : State) :
  server (config (exec e s)) = server (config s)
  \/ exists c, server (config (exec e s)) = Some (or_default (server c) DEFAULT_SERVER).
Proof.
  destruct e; try (left; run_handler; reflexivity).
  destruct (truthy_param init_default a) as [c|] eqn:Hc.
  - right. exists c. now apply init_server.
  - left. destruct a; simpl in Hc; try discriminate Hc. reflexivity.
Qed.

Lemma exec_server_set (e : Event) (s : State) :
  server_set s -> server_set (exec e s).
Proof.
  intros Hs. destruct (exec_server e s) as [H | [c H]].
  - unfold server_set. now rewrite H.
  - exists (or_default (server c) DEFAULT_SERVER). split; [exact H|].
    apply or_default_not_empty. discriminate.
Qed.

Lemma run_server_set (es : list Event) (s : State) :
  server_set s -> server_set (run es s).
Proof.
  revert s. induction es as [|e es IH]; intros s Hs; [exact Hs|].
  rewrite run_cons. apply IH. now apply exec_server_set.
Qed.

Lemma post_from_to_server (c : PyroscopeConfig) (x : string) (o : Obs) :
  server c = Some x -> x <> "" ->
  post_from c o -> post_to_server (name c) o.
Proof.
  intros Hx Hne. destruct o; simpl; try (intros _; exact I).
  intros ->. exists x, (tags c). split; [exact Hne|].
  unfold upload_url. now rewrite Hx.
Qed.

Lemma run_posts_to_server (es : list Event) (s : State) :
  server_set s ->
  exists t, trace (run es s) = trace s ++ t
            /\ Forall (post_to_server (name (config s))) t.
Proof.
  revert s. induction es as [|e es IH]; intros s Hs.
  - exists []. split; [now rewrite app_nil_r | constructor].
  - destruct (exec_posts e s) as (t1 & Ht1 & Hp1).
    destruct (IH (exec e s) (exec_server_set e s Hs)) as (t2 & Ht2 & Hp2).
    exists (t1 ++ t2). split.
    + rewrite run_cons, Ht2, Ht1. now rewrite app_assoc.
    + apply Forall_app. split.
      * destruct Hs as (x & Hx & Hne).
        eapply Forall_impl; [|exact Hp1]. intros o. now apply post_from_to_server with x.
      * now rewrite exec_name in Hp2.
Qed.

(** X2: in every history of the module the global server URL is a string
    that is not empty ([init] falls back to the default for an absent or
    empty one, nothing else assigns it), so every request goes to a URL that
    begins with a server, followed by [/ingest?name=nodejs], a tag fragment
    and [&sampleRate=100]. *)
Theorem X2_server_never_empty (es : list Event) :
  (exists x, server (config (run es initial)) = Some x /\ x <> "")
  /\ Forall (post_to_server "nodejs") (trace (run es initial)).
Proof.
  assert (H0 : server_set initial).
  { exists DEFAULT_SERVER. split; [reflexivity | discriminate]. }
  split.
  - exact (run_server_set es initial H0).
  - destruct (run_posts_to_server es initial H0) as (t & Ht & Hp).
    rewrite Ht. exact Hp.
Qed.

Lemma exec_posts_well_formed (e : Event) (s : State) :
  exists t, trace (exec e s) = trace s ++ t /\ Forall post_well_formed t.
Proof.
  destruct e; run_handler; trace_tail; repeat constructor.
Qed.

(** X3: every request made in any history carries exactly the form of
    [uploadProfile]: the single field [profile], file name [profile],
    content type [text/json], and a declared length equal to the number of
    bytes sent. *)
Theorem X3_request_form (es : list Event) (rid : nat) (url : string) (form : FormData) :
  In (Post rid url form) (trace (run es initial)) ->
  fieldName form = "profile"
  /\ filename form = "profile"
  /\ contentType form = "text/json"
  /\ knownLength form = List.length (fieldValue form).
Proof.
  assert (Hall : forall s, Forall post_well_formed (trace s) ->
                           Forall post_well_formed (trace (run es s))).
  { induction es as [|e es IH]; intros s Hs; [exact Hs|].
    rewrite run_cons. apply IH.
    destruct (exec_posts_well_formed e s) as (t & Ht & Hp).
    rewrite Ht. apply Forall_app. now split. }
  intros Hin. specialize (Hall initial (Forall_nil _)).
  rewrite Forall_forall in Hall. specialize (Hall _ Hin). simpl in Hall.
  rewrite Hall. repeat split.
Qed.

Lemma X3_request_form_witness :
  In (Post 3 "http://example:4040/ingest?name=nodejs{env=prod}&sampleRate=100"
        (profile_form fake_bytes))
     (trace (run scenario initial))
  /\ knownLength (profile_form fake_bytes) = 3.
Proof.
  assert (H : In (Post 3 "http://example:4040/ingest?name=nodejs{env=prod}&sampleRate=100"
                    (profile_form fake_bytes))
                 (trace (run scenario initial))).
  { vm_compute. do 9 right. left. reflexivity. }
  split; [exact H|].
  exact (proj2 (proj2 (proj2 (X3_request_form scenario _ _ _ H)))).
Defined.

(** ** Uploads *)

Lemma length_remove_lt {A : Type} (i : nat) (l : list (nat * A)) (a : A) :
  lookup i l = Some a -> List.length (remove i l) < List.length l.
Proof.
  unfold remove. induction l as [|[j b] l IH]; simpl; intros H; [discriminate|].
  destruct (Nat.eqb j i); simpl.
  - pose proof (filter_length_le (fun x => negb (Nat.eqb (fst x) i)) l). lia.
  - specialize (IH H). lia.
Qed.

Lemma lookup_remove_same {A : Type} (i : nat) (l : list (nat * A)) :
  lookup i (remove i l) = None.
Proof.
  unfold remove. induction l as [|[j b] l IH]; simpl; [reflexivity|].
  destruct (Nat.eqb j i) eqn:E; simpl; [exact IH|]. now rewrite E.
Qed.

(** An encoding that succeeds is sent at once, to the URL of the
    configuration as it is then. *)
Lemma encode_fulfilled (s : State) (uid : nat) (o : Origin) (p : Profile) (buf : Buffer) :
  lookup uid (encodes s) = Some (o, p) ->
  exec (EncodeSettles uid (Fulfilled buf)) s
  = set_trace (fun t => t ++ [ Log [("Sending data to " ++ upload_url (config s))%string];
                               Post (fresh s) (upload_url (config s)) (profile_form buf) ])
      (set_posts (fun l => l ++ [(fresh s, o)])
         (set_fresh (S (fresh s))
            (set_encodes (remove uid) s))).
Proof.
  intros Hl. unfold_module. cbn. rewrite Hl. same_state.
Qed.

(** An encoding that fails rejects the upload, and nobody handles that. *)
Lemma encode_rejected (s : State) (uid : nat) (o : Origin) (p : Profile) (reason : string) :
  lookup uid (encodes s) = Some (o, p) ->
  exec (EncodeSettles uid (Rejected reason)) s
  = set_trace (fun t => t ++ [Rejection (chain_of o)])
      (set_encodes (remove uid) s).
Proof.
  intros Hl. unfold_module. cbn. rewrite Hl. destruct o; same_state.
Qed.

Ltac count_step :=
  unfold count_obs; repeat rewrite ?filter_app, ?length_app; cbn;
  repeat match goal with
         | H : lookup ?i ?l = Some _ |- _ =>
             pose proof (length_remove_lt i l _ H); clear H
         end;
  try lia.

(** One turn keeps the account of profiles, encodings and requests. *)
Lemma exec_counts (e : Event) (s : State) :
  count_obs is_post (trace s) + List.length (encodes s)
    <= count_obs is_encode (trace s) ->
  count_obs is_encode (trace s)
    = count_obs is_fulfilled_capture (trace s) + count_obs is_heap_profile (trace s) ->
  count_obs is_post (trace (exec e s)) + List.length (encodes (exec e s))
    <= count_obs is_encode (trace (exec e s))
  /\ count_obs is_encode (trace (exec e s))
     = count_obs is_fulfilled_capture (trace (exec e s))
       + count_obs is_heap_profile (trace (exec e s)).
Proof.
  intros H1 H2. unfold count_obs in H1, H2.
  destruct e; run_handler; split; count_step.
Qed.

(** X4: in every history there are never more requests than profiles
    obtained: each fulfilled capture and each heap snapshot is encoded once,
    and each encoding is sent at most once; nothing is sent twice or again
    after a failure. *)
Theorem X4_one_request_per_profile (es : list Event) :
  count_obs is_post (trace (run es initial))
  + List.length (encodes (run es initial))
  <= count_obs is_encode (trace (run es initial))
  /\ count_obs is_encode (trace (run es initial))
     = count_obs is_fulfilled_capture (trace (run es initial))
       + count_obs is_heap_profile (trace (run es initial)).
Proof.
  assert (Hall : forall s,
    count_obs is_post (trace s) + List.length (encodes s)
      <= count_obs is_encode (trace s) ->
    count_obs is_encode (trace s)
      = count_obs is_fulfilled_capture (trace s) + count_obs is_heap_profile (trace s) ->
    count_obs is_post (trace (run es s)) + List.length (encodes (run es s))
      <= count_obs is_encode (trace (run es s))
    /\ count_obs is_encode (trace (run es s))
       = count_obs is_fulfilled_capture (trace (run es s))
         + count_obs is_heap_profile (trace (run es s))).
  { induction es as [|e es IH]; intros s H1 H2; [now split|].
    rewrite run_cons. destruct (exec_counts e s H1 H2) as [H1' H2']. now apply IH. }
  apply Hall; reflexivity.
Qed.

(** X5: when [pprof.encode] rejects, the profile is dropped: no request is
    made and the line that reports an upload is not logged; the rejection
    reaches the caller's promise chain, where nothing handles it.  The
    profiling state (captures, queue, flag, timers, configuration) is
    untouched. *)
Theorem X5_encode_failure_unhandled
  (s : State) (uid : nat) (o : Origin) (p : Profile) (reason : string)
  (Hpending : lookup uid (encodes s) = Some (o, p)) :
  exec (EncodeSettles uid (Rejected reason)) s
  = set_trace (fun t => t ++ [Rejection (chain_of o)])
      (set_encodes (remove uid) s)
  /\ posts (exec (EncodeSettles uid (Rejected reason)) s) = posts s
  /\ lookup uid (encodes (exec (EncodeSettles uid (Rejected reason)) s)) = None
  /\ forall r, exec (EncodeSettles uid r) (exec (EncodeSettles uid (Rejected reason)) s)
               = exec (EncodeSettles uid (Rejected reason)) s.
Proof.
  pose proof (encode_rejected s uid o p reason Hpending) as H.
  split; [exact H|]. rewrite H. split; [reflexivity|].
  assert (Hgone : lookup uid (encodes (set_trace (fun t => t ++ [Rejection (chain_of o)])
                                         (set_encodes (remove uid) s))) = None)
    by apply lookup_remove_same.
  split; [exact Hgone|].
  intros r. unfold exec, handle, on_encode. unfold bind at 1. unfold gets at 1 2.
  cbn [fst snd]. rewrite Hgone. reflexivity.
Qed.

Lemma X5_encode_failure_unhandled_witness :
  lookup 2 (encodes (run [ CallStartCpuProfiling [];
                           TimeProfileSettles 1 (Fulfilled fake_profile) ] initial))
  = Some (CpuRound, fake_profile)
  /\ posts (exec (EncodeSettles 2 (Rejected "bad profile"))
              (run [ CallStartCpuProfiling [];
                     TimeProfileSettles 1 (Fulfilled fake_profile) ] initial))
     = posts (run [ CallStartCpuProfiling [];
                    TimeProfileSettles 1 (Fulfilled fake_profile) ] initial).
Proof.
  assert (H : lookup 2 (encodes (run [ CallStartCpuProfiling [];
                           TimeProfileSettles 1 (Fulfilled fake_profile) ] initial))
              = Some (CpuRound, fake_profile)) by (vm_compute; reflexivity).
  split; [exact H|].
  exact (proj1 (proj2 (X5_encode_failure_unhandled _ 2 CpuRound fake_profile
                         "bad profile" H))).
Defined.

Lemma init_encodes (a : Arg PyroscopeConfig) (s : State) :
  encodes (exec (CallInit a) s) = encodes s.
Proof. run_handler; reflexivity. Qed.

(** X6: the URL of a request is built when the encoding is done, from the
    configuration as it is then: a profile captured before an [init] call
    and encoded after it goes to the server and with the tags of that later
    call. *)
Theorem X6_url_bound_when_encoded
  (s : State) (uid : nat) (o : Origin) (p : Profile) (buf : Buffer)
  (a : Arg PyroscopeConfig) (c : PyroscopeConfig)
  (Hpending : lookup uid (encodes s) = Some (o, p))
  (Hc : truthy_param init_default a = Some c) :
  trace (exec (EncodeSettles uid (Fulfilled buf)) (exec (CallInit a) s))
  = trace (exec (CallInit a) s)
      ++ [ Log [("Sending data to " ++ upload_url (configured c (config s)))%string];
           Post (fresh (exec (CallInit a) s))
             (upload_url (configured c (config s))) (profile_form buf) ].
Proof.
  assert (Hl : lookup uid (encodes (exec (CallInit a) s)) = Some (o, p))
    by now rewrite init_encodes.
  rewrite (encode_fulfilled _ uid o p buf Hl).
  rewrite (init_config a c s Hc). reflexivity.
Qed.

Lemma X6_url_bound_when_encoded_witness :
  lookup 2 (encodes (run [ CallStartCpuProfiling [];
                           TimeProfileSettles 1 (Fulfilled fake_profile) ] initial))
  = Some (CpuRound, fake_profile)
  /\ truthy_param init_default (Given scenario_config) = Some scenario_config
  /\ filter is_post
       (trace (exec (EncodeSettles 2 (Fulfilled fake_bytes))
                 (exec (CallInit (Given scenario_config))
                    (run [ CallStartCpuProfiling [];
                           TimeProfileSettles 1 (Fulfilled fake_profile) ] initial))))
     = [ Post 3 "http://example:4040/ingest?name=nodejs{env=prod}&sampleRate=100"
           (profile_form fake_bytes) ].
Proof.
  assert (H : lookup 2 (encodes (run [ CallStartCpuProfiling [];
                           TimeProfileSettles 1 (Fulfilled fake_profile) ] initial))
              = Some (CpuRound, fake_profile)) by (vm_compute; reflexivity).
  split; [exact H|]. split; [reflexivity|].
  rewrite (X6_url_bound_when_encoded _ 2 CpuRound fake_profile fake_bytes
             (Given scenario_config) scenario_config H eq_refl).
  vm_compute. reflexivity.
Defined.

(** ** Heap profiling session, one call at a time *)

Lemma in_lookup {A : Type} (i : nat) (a : A) (l : list (nat * A)) :
  In (i, a) l -> exists b, lookup i l = Some b.
Proof.
  induction l as [|[j c] l IH]; simpl; intros H; [contradiction|].
  destruct (Nat.eqb j i) eqn:E.
  - now exists c.
  - destruct H as [H|H]; [|now apply IH].
    inversion H; subst. now rewrite Nat.eqb_refl in E.
Qed.

Lemma filter_remove {A : Type} (f : nat * A -> bool) (i : nat) (l : list (nat * A)) :
  filter f (remove i l) = remove i (filter f l).
Proof.
  unfold remove. induction l as [|x l IH]; simpl; [reflexivity|].
  destruct (Nat.eqb (fst x) i) eqn:Ei, (f x) eqn:Ef; simpl;
    rewrite ?Ei, ?Ef; simpl; rewrite ?IH; reflexivity.
Qed.

Lemma pending_heap_remove_le (mid : nat) (l : list (nat * MapperUse)) :
  List.length (filter is_for_heap (remove mid l))
  <= List.length (filter is_for_heap l).
Proof.
  rewrite filter_remove. unfold remove. apply filter_length_le.
Qed.

Lemma pending_heap_remove_lt (mid : nat) (l : list (nat * MapperUse)) :
  lookup mid l = Some ForHeap ->
  List.length (filter is_for_heap (remove mid l))
  < List.length (filter is_for_heap l).
Proof.
  intros Hl. rewrite filter_remove.
  assert (Hin : In (mid, ForHeap) (filter is_for_heap l)).
  { apply filter_In. split; [now apply lookup_in | reflexivity]. }
  destruct (in_lookup _ _ _ Hin) as [b Hb].
  now apply length_remove_lt with b.
Qed.

(** The events that are no call of [init], [startHeapProfiling] or
    [stopHeapProfiling] and no source mapper leave the session alone. *)
Lemma exec_heap_frame (e : Event) (s : State) :
  match e with
  | CallInit _ | CallStartHeapProfiling _ | CallStopHeapProfiling
  | SourceMapperSettles _ _ => True
  | _ =>
      heapProfilingTimer (exec e s) = heapProfilingTimer s
      /\ intervals (exec e s) = intervals s
      /\ mappers (exec e s) = mappers s
  end.
Proof.
  destruct e; try exact I; run_handler; repeat split.
Qed.

Lemma heap_inv_same (s s' : State) :
  heapProfilingTimer s' = heapProfilingTimer s ->
  intervals s' = intervals s ->
  pending_heap s' <= pending_heap s ->
  heap_inv s -> heap_inv s'.
Proof.
  unfold heap_inv. intros -> -> Hp H.
  destruct (heapProfilingTimer s); destruct H as [Hi Hq]; split; try exact Hi; lia.
Qed.

Lemma heap_inv_start (tags : TagList) (s : State) :
  pending_heap s = 0 -> heap_inv s ->
  heap_inv (exec (CallStartHeapProfiling tags) s).
Proof.
  intros H0 Hinv. destruct (heapProfilingTimer s) as [t|] eqn:Ht.
  - destruct (startHeapProfiling_running tags s t Ht) as [_ Hsame]. now rewrite Hsame.
  - unfold heap_inv in *. rewrite Ht in Hinv. destruct Hinv as [Hi _].
    unfold pending_heap in *.
    unfold_module. cbn. rewrite Ht. cbn. rewrite Ht. split; [exact Hi|].
    rewrite filter_app, length_app, H0. simpl. lia.
Qed.

Lemma heap_inv_stop (s : State) :
  heap_inv s -> heap_inv (exec CallStopHeapProfiling s).
Proof.
  intros Hinv. unfold heap_inv in *.
  destruct (heapProfilingTimer s) as [t|] eqn:Ht.
  - destruct Hinv as [[m Hi] Hp]. unfold pending_heap in *.
    unfold_module. cbn. rewrite Ht. cbn. rewrite Hi. unfold remove. simpl.
    rewrite Nat.eqb_refl. simpl. split; [reflexivity | lia].
  - unfold_module. cbn. rewrite Ht. cbn. now rewrite Ht.
Qed.

Lemma heap_inv_mapper (mid : nat) (r : Settled SourceMapper string) (s : State) :
  heap_inv s -> heap_inv (exec (SourceMapperSettles mid r) s).
Proof.
  intros Hinv. destruct (lookup mid (mappers s)) as [use|] eqn:Hl.
  2: { unfold_module. cbn. now rewrite Hl. }
  destruct use.
  - apply (heap_inv_same s); try exact Hinv;
      unfold pending_heap; unfold_module; cbn; rewrite Hl;
      destruct r; cbn; try reflexivity; apply pending_heap_remove_le.
  - pose proof (pending_heap_remove_lt mid (mappers s) Hl) as Hlt.
    unfold heap_inv in *. unfold pending_heap in *.
    destruct (heapProfilingTimer s) as [t|] eqn:Ht; destruct Hinv as [Hi Hp];
      [lia|].
    destruct r as [m|reason].
    + rewrite (heap_mapper_fulfilled s mid m Hl).
      destruct (heapSamplerStarted s); cbn.
      * rewrite Ht. split; [exact Hi | lia].
      * rewrite Hi. split; [now eexists | lia].
    + unfold_module. cbn. rewrite Hl. cbn. rewrite Ht. split; [exact Hi | lia].
Qed.

Lemma heap_inv_init_plain (c : PyroscopeConfig) (s : State) :
  heapProfilingTimer (exec (CallInit (Given (without_autoStart c))) s)
  = heapProfilingTimer s
  /\ intervals (exec (CallInit (Given (without_autoStart c))) s) = intervals s
  /\ pending_heap (exec (CallInit (Given (without_autoStart c))) s) = pending_heap s.
Proof.
  unfold pending_heap. run_handler; repeat split;
    rewrite ?filter_app, ?length_app; simpl; lia.
Qed.

Lemma heap_start_cpu (tags : TagList) (s : State) :
  heapProfilingTimer (exec (CallStartCpuProfiling tags) s) = heapProfilingTimer s
  /\ intervals (exec (CallStartCpuProfiling tags) s) = intervals s
  /\ mappers (exec (CallStartCpuProfiling tags) s) = mappers s.
Proof. exact (exec_heap_frame (CallStartCpuProfiling tags) s). Qed.

Lemma heap_inv_init (a : Arg PyroscopeConfig) (s : State) :
  (starts_heap (CallInit a) = true -> pending_heap s = 0) ->
  heap_inv s -> heap_inv (exec (CallInit a) s).
Proof.
  intros Hpre Hinv. simpl in Hpre.
  destruct (truthy_param init_default a) as [c|] eqn:Hc.
  2: { destruct a; simpl in Hc; try discriminate Hc. exact Hinv. }
  destruct (heap_inv_init_plain c s) as (Ht & Hi & Hp).
  assert (Hplain : heap_inv (exec (CallInit (Given (without_autoStart c))) s)).
  { apply (heap_inv_same s); try assumption. lia. }
  destruct (autoStart c) eqn:Ha.
  - rewrite (init_autoStart a c s Hc Ha).
    destruct (heap_start_cpu [] (exec (CallInit (Given (without_autoStart c))) s))
      as (Ht' & Hi' & Hm').
    apply heap_inv_start.
    + unfold pending_heap. rewrite Hm'. fold (pending_heap (exec (CallInit (Given (without_autoStart c))) s)).
      rewrite Hp. now apply Hpre.
    + apply (heap_inv_same (exec (CallInit (Given (without_autoStart c))) s));
        try assumption. unfold pending_heap. rewrite Hm'. lia.
  - assert (Hsame : exec (CallInit a) s = exec (CallInit (Given (without_autoStart c))) s).
    { unfold exec, handle, init. rewrite Hc.
      change (truthy_param init_default (Given (without_autoStart c)))
        with (Some (without_autoStart c)).
      cbv beta iota zeta.
      change (autoStart (without_autoStart c)) with false.
      change (server (without_autoStart c)) with (server c).
      change (sourceMapPath (without_autoStart c)) with (sourceMapPath c).
      change (tags (without_autoStart c)) with (tags c).
      now rewrite Ha. }
    now rewrite Hsame.
Qed.

Lemma exec_heap_inv (e : Event) (s : State) :
  (starts_heap e = true -> pending_heap s = 0) ->
  heap_inv s -> heap_inv (exec e s).
Proof.
  intros Hpre Hinv.
  destruct e;
    try (now apply heap_inv_init);
    try (apply heap_inv_start; [now apply Hpre | exact Hinv]);
    try (now apply heap_inv_stop);
    try (now apply heap_inv_mapper).
  all: match goal with
       | |- heap_inv (exec ?e ?s0) =>
           destruct (exec_heap_frame e s0) as (Ht & Hi & Hm);
           apply (heap_inv_same s0)
       end; try assumption;
    unfold pending_heap; rewrite Hm; lia.
Qed.

Lemma heap_inv_initial : heap_inv initial.
Proof. unfold heap_inv, pending_heap. simpl. split; [reflexivity | lia]. Qed.

Lemma run_heap_inv (es : list Event) (s : State) :
  serial s es = true -> heap_inv s -> heap_inv (run es s).
Proof.
  revert s. induction es as [|e es IH]; intros s Hs Hinv; [exact Hinv|].
  simpl in Hs. apply andb_true_iff in Hs. destruct Hs as [Hpre Hs].
  rewrite run_cons. apply IH; [exact Hs|]. apply exec_heap_inv; [|exact Hinv].
  intros He. rewrite He in Hpre. simpl in Hpre. now apply Nat.eqb_eq.
Qed.

(** X7: in a history where [startHeapProfiling] is never called while an
    earlier call still waits for its source mapper, the session is
    idempotent: at most one timer is active, the handle is present exactly
    when there is one and names it, and at most one start call is under
    way. *)
Theorem X7_heap_one_timer_when_serial (es : list Event)
  (Hserial : serial initial es = true) :
  List.length (intervals (run es initial)) <= 1
  /\ (forall t, heapProfilingTimer (run es initial) = Some t <->
                exists m, intervals (run es initial) = [(t, m)])
  /\ (heapProfilingTimer (run es initial) = None <-> intervals (run es initial) = [])
  /\ pending_heap (run es initial) <= 1.
Proof.
  pose proof (run_heap_inv es initial Hserial heap_inv_initial) as Hinv.
  unfold heap_inv in Hinv.
  destruct (heapProfilingTimer (run es initial)) as [t|];
    destruct Hinv as [Hi Hp].
  - destruct Hi as [m Hi]. rewrite Hi. simpl. split; [lia|]. split; [|split].
    + intros t'. split.
      * intros H. inversion H; subst. now exists m.
      * intros [m' H]. now inversion H.
    + split; discriminate.
    + lia.
  - rewrite Hi. simpl. split; [lia|]. split; [|split].
    + intros t'. split; [discriminate | intros [m' H]; discriminate H].
    + now split.
    + exact Hp.
Qed.

Lemma X7_heap_one_timer_when_serial_witness :
  serial initial heap_session = true
  /\ List.length (intervals (run heap_session initial)) <= 1.
Proof.
  assert (H : serial initial heap_session = true) by (vm_compute; reflexivity).
  split; [exact H|].
  exact (proj1 (X7_heap_one_timer_when_serial heap_session H)).
Defined.

(** X8: [stopHeapProfiling], with the handle [t] present, clears the timer
    [t] and the handle: a tick of [t] that arrives later is not run, uploads
    already begun stay pending, a second [stopHeapProfiling] changes nothing,
    and the next [startHeapProfiling] passes the guard and asks for a source
    mapper again. *)
Theorem X8_stop_heap_cancels_timer (s : State) (t : nat)
  (Hrunning : heapProfilingTimer s = Some t) :
  heapProfilingTimer (exec CallStopHeapProfiling s) = None
  /\ intervals (exec CallStopHeapProfiling s) = remove t (intervals s)
  /\ lookup t (intervals (exec CallStopHeapProfiling s)) = None
  /\ (forall p, exec (IntervalFires t p) (exec CallStopHeapProfiling s)
                = exec CallStopHeapProfiling s)
  /\ encodes (exec CallStopHeapProfiling s) = encodes s
  /\ posts (exec CallStopHeapProfiling s) = posts s
  /\ trace (exec CallStopHeapProfiling s)
     = trace s ++ [Log ["Stopping heap profiling"]; ClearInterval t]
  /\ (forall tags, fst (startHeapProfiling tags (exec CallStopHeapProfiling s))
                   = AwaitsMapper (fresh s))
  /\ exec CallStopHeapProfiling (exec CallStopHeapProfiling s)
     = exec CallStopHeapProfiling s.
Proof.
  assert (Hs : exec CallStopHeapProfiling s
               = set_heapProfilingTimer None
                   (set_intervals (remove t)
                      (set_trace (fun tr => tr ++ [Log ["Stopping heap profiling"];
                                                   ClearInterval t]) s))).
  { unfold_module. cbn. rewrite Hrunning. same_state. }
  rewrite Hs.
  assert (Hgone : lookup t (remove t (intervals s)) = None)
    by apply lookup_remove_same.
  repeat split; try exact Hgone.
  - intros p. unfold exec, handle, on_interval. unfold bind, gets. cbn [fst snd].
    cbn [intervals set_heapProfilingTimer set_intervals set_trace].
    now rewrite Hgone.
Qed.

Lemma X8_stop_heap_cancels_timer_witness :
  heapProfilingTimer (run heap_session initial) = None
  /\ heapProfilingTimer
       (run [ CallStartHeapProfiling [];
              SourceMapperSettles 0 (Fulfilled (SourceMapperObject 0)) ] initial)
     = Some 1
  /\ lookup 1 (intervals
       (exec CallStopHeapProfiling
          (run [ CallStartHeapProfiling [];
                 SourceMapperSettles 0 (Fulfilled (SourceMapperObject 0)) ] initial)))
     = None.
Proof.
  assert (H : heapProfilingTimer
       (run [ CallStartHeapProfiling [];
              SourceMapperSettles 0 (Fulfilled (SourceMapperObject 0)) ] initial)
     = Some 1) by (vm_compute; reflexivity).
  split; [vm_compute; reflexivity|]. split; [exact H|].
  exact (proj1 (proj2 (proj2 (X8_stop_heap_cancels_timer _ 1 H)))).
Defined.

(** [stopHeapProfiling] without a handle is no operation. *)
Lemma stopHeapProfiling_stopped (s : State) :
  heapProfilingTimer s = None -> exec CallStopHeapProfiling s = s.
Proof.
  intros Ht. unfold exec, handle, stopHeapProfiling, bind, gets. cbn [fst snd].
  now rewrite Ht.
Qed.

Lemma stop_heap_facts (s : State) (t : nat) :
  heapProfilingTimer s = Some t ->
  heapProfilingTimer (exec CallStopHeapProfiling s) = None
  /\ intervals (exec CallStopHeapProfiling s) = remove t (intervals s)
  /\ filter is_heap_start (trace (exec CallStopHeapProfiling s))
     = filter is_heap_start (trace s).
Proof.
  intros Ht. unfold_module. cbn. rewrite Ht. cbn.
  rewrite !filter_app. cbn. rewrite !app_nil_r. repeat split.
Qed.

Lemma started_same (s s' : State) :
  filter is_heap_start (trace s') = filter is_heap_start (trace s) ->
  heapSamplerStarted s' = heapSamplerStarted s.
Proof.
  intros Hf. destruct (heapSamplerStarted s) eqn:E.
  - destruct (heapSamplerStarted s') eqn:E'; [reflexivity|].
    apply started_filter in E'. rewrite Hf in E'. apply started_filter in E'.
    congruence.
  - apply started_filter. rewrite Hf. now apply started_filter.
Qed.

Lemma exec_heap_spent (e : Event) (s : State) :
  heap_spent s -> heap_spent (exec e s).
Proof.
  intros (Hs & Ht & Hi).
  assert (Hsame : heapProfilingTimer (exec e s) = heapProfilingTimer s ->
                  intervals (exec e s) = intervals s ->
                  filter is_heap_start (trace (exec e s))
                  = filter is_heap_start (trace s) ->
                  heap_spent (exec e s)).
  { intros Ht' Hi' Hf. unfold heap_spent.
    rewrite Ht', Hi', (started_same s _ Hf). now repeat split. }
  destruct e;
    try (match goal with
         | |- heap_spent (exec ?e ?s0) =>
             destruct (exec_heap_fields e s0) as (Ht' & Hi' & Hf)
         end; now apply Hsame).
  - rewrite (stopHeapProfiling_stopped s Ht). now repeat split.
  - destruct (lookup mid (mappers s)) as [[|]|] eqn:Hl;
      try (destruct (heap_mapper_other s mid r) as (Ht' & Hi' & Hf);
           [intros m _; rewrite Hl; discriminate | now apply Hsame]).
    destruct r as [m|reason].
    2: { destruct (heap_mapper_other s mid (Rejected reason)) as (Ht' & Hi' & Hf);
           [discriminate | now apply Hsame]. }
    apply Hsame; rewrite (heap_mapper_fulfilled s mid m Hl), Hs;
      try reflexivity.
    cbn. rewrite filter_app. cbn. now rewrite app_nil_r.
Qed.

(** X22: [stopHeapProfiling] clears the timer but does not stop the heap
    sampler, and [pprof.heap.start] throws on a sampler that is started: once
    a running heap session was stopped, no later [startHeapProfiling] sets a
    timer again; in every continuation there is no timer and no handle. *)
Theorem X22_heap_session_cannot_restart
  (es es' : list Event) (t : nat)
  (Hrunning : heapProfilingTimer (run es initial) = Some t) :
  intervals (run es' (exec CallStopHeapProfiling (run es initial))) = []
  /\ heapProfilingTimer (run es' (exec CallStopHeapProfiling (run es initial))) = None
  /\ heapSamplerStarted (run es' (exec CallStopHeapProfiling (run es initial))) = true.
Proof.
  pose proof (run_heap_once es initial heap_once_initial) as Honce.
  unfold heap_once in Honce. rewrite Hrunning in Honce.
  destruct Honce as [[m Hi] Hone].
  destruct (stop_heap_facts (run es initial) t Hrunning) as (Ht1 & Hi1 & Hf1).
  assert (Hspent : heap_spent (exec CallStopHeapProfiling (run es initial))).
  { unfold heap_spent. rewrite Ht1, Hi1, Hi. split; [|split; [reflexivity|]].
    - destruct (heapSamplerStarted (exec CallStopHeapProfiling (run es initial))) eqn:E;
        [reflexivity|].
      apply started_filter in E. rewrite Hf1 in E. rewrite E in Hone. discriminate.
    - unfold remove. simpl. now rewrite Nat.eqb_refl. }
  clear - Hspent. revert Hspent.
  generalize (exec CallStopHeapProfiling (run es initial)). intros s Hspent.
  assert (H : heap_spent (run es' s)).
  { revert s Hspent. induction es' as [|e es' IH]; intros s Hspent; [exact Hspent|].
    rewrite run_cons. apply IH. now apply exec_heap_spent. }
  destruct H as (Hs & Ht & Hi). now repeat split.
Qed.

Lemma X22_heap_session_cannot_restart_witness :
  heapProfilingTimer
    (run [ CallStartHeapProfiling [];
           SourceMapperSettles 0 (Fulfilled (SourceMapperObject 0)) ] initial)
  = Some 1
  /\ intervals
       (run [ CallStartHeapProfiling [];
              SourceMapperSettles 2 (Fulfilled (SourceMapperObject 1)) ]
          (exec CallStopHeapProfiling
             (run [ CallStartHeapProfiling [];
                    SourceMapperSettles 0 (Fulfilled (SourceMapperObject 0)) ] initial)))
     = [].
Proof.
  assert (H : heapProfilingTimer
    (run [ CallStartHeapProfiling [];
           SourceMapperSettles 0 (Fulfilled (SourceMapperObject 0)) ] initial)
    = Some 1) by (vm_compute; reflexivity).
  split; [exact H|].
  exact (proj1 (X22_heap_session_cannot_restart
                  [ CallStartHeapProfiling [];
                    SourceMapperSettles 0 (Fulfilled (SourceMapperObject 0)) ]
                  [ CallStartHeapProfiling [];
                    SourceMapperSettles 2 (Fulfilled (SourceMapperObject 1)) ]
                  1 H)).
Defined.

(** ** CPU loops: how many, and how they go on *)

Lemma exec_cpu_count (e : Event) (s : State) :
  List.length (captures (exec e s)) + List.length (immediates (exec e s))
  <= List.length (captures s) + List.length (immediates s)
     + (if starts_cpu e then 1 else 0).
Proof.
  destruct e; simpl starts_cpu; try (destruct a; simpl truthy_param);
    run_handler; repeat rewrite ?length_app; cbn;
    repeat match goal with
           | H : lookup ?i ?l = Some _ |- _ =>
               pose proof (length_remove_lt i l _ H); clear H
           | H : immediates _ = _ |- _ => rewrite H; clear H
           end;
    cbn; try lia.
Qed.

Lemma run_cpu_count (es : list Event) (s : State) :
  List.length (captures (run es s)) + List.length (immediates (run es s))
  <= List.length (captures s) + List.length (immediates s) + count_starts es.
Proof.
  revert s. induction es as [|e es IH]; intros s.
  - unfold count_starts. simpl. lia.
  - rewrite run_cons. specialize (IH (exec e s)).
    pose proof (exec_cpu_count e s) as He.
    unfold count_starts in *. simpl filter.
    destruct (starts_cpu e); simpl List.length; lia.
Qed.

(** X9: at any moment the captures under way and the rounds waiting in the
    [setImmediate] queue are together no more than the calls of
    [startCpuProfiling] made so far (those of [init] with [autoStart]
    included): with a single start, never two captures at once. *)
Theorem X9_captures_bounded_by_starts (es : list Event) :
  List.length (captures (run es initial))
  + List.length (immediates (run es initial))
  <= count_starts es.
Proof.
  pose proof (run_cpu_count es initial) as H. simpl in H. exact H.
Qed.

(** X10: [startCpuProfiling] has no guard against a loop that is already
    running: each of [n] calls in a row sets the flag and begins a capture
    for a closure of its own, so [n] more captures are under way. *)
Theorem X10_start_cpu_not_idempotent (ts : list TagList) (s : State) :
  captures (run (map CallStartCpuProfiling ts) s)
  = captures s ++ new_loops (fresh s) (List.length ts)
  /\ fresh (run (map CallStartCpuProfiling ts) s) = fresh s + 2 * List.length ts
  /\ isCpuProfilingRunning (run (map CallStartCpuProfiling ts) s)
     = match ts with
       | [] => isCpuProfilingRunning s
       | _ => true
       end.
Proof.
  revert s. induction ts as [|t ts IH]; intros s.
  - simpl. rewrite app_nil_r. repeat split. lia.
  - simpl map. rewrite run_cons. destruct (IH (exec (CallStartCpuProfiling t) s))
      as (Hc & Hf & Hr).
    destruct (exec_start_cpu t s) as (Hc1 & _ & Hf1 & _).
    rewrite Hc, Hf, Hr, Hc1, Hf1. simpl List.length. simpl new_loops.
    rewrite <- app_assoc. simpl. split; [reflexivity|]. split; [lia|].
    destruct ts; reflexivity.
Qed.

Lemma lookup_app_fresh {A : Type} (i : nat) (a : A) (l : list (nat * A)) :
  Forall (fun x => fst x < i) l -> lookup i (l ++ [(i, a)]) = Some a.
Proof.
  induction l as [|[j b] l IH]; simpl; intros H.
  - now rewrite Nat.eqb_refl.
  - inversion H as [|? ? Hj Hl]; subst. simpl in Hj.
    replace (Nat.eqb j i) with false by (symmetry; apply Nat.eqb_neq; lia).
    now apply IH.
Qed.

Lemma Forall_remove {A : Type} (P : nat * A -> Prop) (i : nat) (l : list (nat * A)) :
  Forall P l -> Forall P (remove i l).
Proof.
  intros H. apply Forall_forall. intros x Hx. apply filter_In in Hx.
  rewrite Forall_forall in H. now apply H.
Qed.

Lemma run_append (es es' : list Event) (s : State) :
  run (es ++ es') s = run es' (run es s).
Proof. apply fold_left_app. Qed.

Lemma exec_immediate_frame (s : State) :
  isCpuProfilingRunning (exec Immediate s) = isCpuProfilingRunning s
  /\ encodes (exec Immediate s) = encodes s.
Proof. run_handler; split; reflexivity. Qed.

(** One round of a running loop leaves the loop as it found it, one
    upload further. *)
Lemma round_keeps_running (s : State) (cid l : nat) (p : Profile) :
  cpu_inv s ->
  lookup cid (captures s) = Some l ->
  isCpuProfilingRunning s = true ->
  immediates s = [] ->
  lookup (S (fresh s)) (captures (run (round_events cid p) s)) = Some l
  /\ isCpuProfilingRunning (run (round_events cid p) s) = true
  /\ immediates (run (round_events cid p) s) = []
  /\ fresh (run (round_events cid p) s) = S (S (fresh s))
  /\ encodes (run (round_events cid p) s) = encodes s ++ [(fresh s, (CpuRound, p))]
  /\ cpu_inv (run (round_events cid p) s).
Proof.
  intros Hinv Hl Hon Hq.
  pose proof Hinv as [(_ & Hids & _) _].
  assert (Hinv2 : cpu_inv (run (round_events cid p) s)) by now apply run_cpu_inv.
  unfold round_events in *. rewrite !run_cons in *. simpl run in *.
  pose proof (settle_when_running s cid l p Hl Hon) as H1.
  remember (exec (TimeProfileSettles cid (Fulfilled p)) s) as s1 eqn:Es1.
  assert (Hc1 : captures s1 = remove cid (captures s)) by (rewrite H1; reflexivity).
  assert (Hq1 : immediates s1 = [l]) by (rewrite H1; cbn; now rewrite Hq).
  assert (Hf1 : fresh s1 = S (fresh s)) by (rewrite H1; reflexivity).
  assert (Hr1 : isCpuProfilingRunning s1 = true) by (rewrite H1; exact Hon).
  assert (He1 : encodes s1 = encodes s ++ [(fresh s, (CpuRound, p))])
    by (rewrite H1; reflexivity).
  destruct (exec_immediate s1 l [] Hq1) as (Hi2 & Hc2 & Hf2 & _).
  destruct (exec_immediate_frame s1) as (Hr2 & He2).
  rewrite Hc2, Hi2, Hf2, Hr2, He2, Hc1, Hf1, Hr1, He1.
  split; [|split; [|split; [|split; [|split]]]];
    try reflexivity; try exact Hinv2.
  apply lookup_app_fresh. apply Forall_remove.
  eapply Forall_impl; [|exact Hids]. simpl. intros x Hx. lia.
Qed.

(** X11: a loop with a capture under way keeps going for as long as its
    captures are fulfilled and nobody calls stop: after any number of
    consecutive rounds a capture of the same loop is pending again, the flag
    is on, and every profile obtained was handed to [uploadProfile], in
    order, whether or not the earlier uploads have finished. *)
Theorem X11_loop_goes_on (es : list Event) (ps : list Profile) (cid l : nat)
  (Hflight : lookup cid (captures (run es initial)) = Some l)
  (Hon : isCpuProfilingRunning (run es initial) = true)
  (Hqueue : immediates (run es initial) = []) :
  let s := run es initial in
  let s' := run (rounds_from cid (fresh s) ps) s in
  (exists cid', lookup cid' (captures s') = Some l)
  /\ isCpuProfilingRunning s' = true
  /\ immediates s' = []
  /\ map snd (encodes s') = map snd (encodes s) ++ map (fun p => (CpuRound, p)) ps.
Proof.
  cbv zeta.
  assert (Hinv : cpu_inv (run es initial)) by (apply run_cpu_inv, cpu_inv_initial).
  generalize dependent (run es initial). intros s Hflight Hon Hqueue Hinv.
  revert s cid Hflight Hon Hqueue Hinv.
  induction ps as [|p ps IH]; intros s cid Hflight Hon Hqueue Hinv.
  - simpl. rewrite app_nil_r.
    split; [now exists cid|]. split; [exact Hon|]. split; [exact Hqueue | reflexivity].
  - cbn [rounds_from]. rewrite run_append.
    destruct (round_keeps_running s cid l p Hinv Hflight Hon Hqueue)
      as (Hl' & Hon' & Hq' & Hf' & He' & Hinv').
    rewrite <- Hf'.
    destruct (IH _ (S (fresh s)) Hl' Hon' Hq' Hinv') as (Hex & Hr & Hi & Hm).
    split; [exact Hex|]. split; [exact Hr|]. split; [exact Hi|].
    rewrite Hm, He', map_app. simpl. now rewrite <- app_assoc.
Qed.

Lemma X11_loop_goes_on_witness :
  lookup 1 (captures (run [CallStartCpuProfiling []] initial)) = Some 0
  /\ isCpuProfilingRunning (run [CallStartCpuProfiling []] initial) = true
  /\ immediates (run [CallStartCpuProfiling []] initial) = []
  /\ isCpuProfilingRunning
       (run (rounds_from 1 (fresh (run [CallStartCpuProfiling []] initial))
               [fake_profile; fake_profile; fake_profile])
          (run [CallStartCpuProfiling []] initial))
     = true.
Proof.
  assert (H1 : lookup 1 (captures (run [CallStartCpuProfiling []] initial)) = Some 0)
    by (vm_compute; reflexivity).
  assert (H2 : isCpuProfilingRunning (run [CallStartCpuProfiling []] initial) = true)
    by (vm_compute; reflexivity).
  assert (H3 : immediates (run [CallStartCpuProfiling []] initial) = [])
    by (vm_compute; reflexivity).
  split; [exact H1|]. split; [exact H2|]. split; [exact H3|].
  exact (proj1 (proj2 (X11_loop_goes_on [CallStartCpuProfiling []]
                         [fake_profile; fake_profile; fake_profile] 1 0 H1 H2 H3))).
Defined.

Lemma start_cpu_running (tags : TagList) (s : State) :
  isCpuProfilingRunning (exec (CallStartCpuProfiling tags) s) = true.
Proof. reflexivity. Qed.

(** X12: stop followed by start while a capture is under way does not
    replace the loop: the flag is on again when the old capture is
    fulfilled, so the old loop schedules its next round, beside the capture
    of the new loop. *)
Theorem X12_stop_then_start_keeps_old_loop
  (es : list Event) (cid l : nat) (tags : TagList) (p : Profile)
  (Hflight : lookup cid (captures (run es initial)) = Some l) :
  let s := run es initial in
  let s1 := exec (CallStartCpuProfiling tags) (exec CallStopCpuProfiling s) in
  let s2 := exec (TimeProfileSettles cid (Fulfilled p)) s1 in
  lookup cid (captures s1) = Some l
  /\ isCpuProfilingRunning s1 = true
  /\ immediates s2 = immediates s ++ [l]
  /\ lookup (S (fresh s)) (captures s2) = Some (fresh s)
  /\ l <> fresh s.
Proof.
  cbv zeta.
  assert (Hinv : cpu_inv (run es initial)) by (apply run_cpu_inv, cpu_inv_initial).
  generalize dependent (run es initial). intros s Hflight Hinv.
  destruct (pending_is_capturing s cid l Hinv Hflight) as (_ & _ & _ & Hlt).
  pose proof Hinv as [(_ & Hids & _) _].
  remember (exec CallStopCpuProfiling s) as s0 eqn:Es0.
  assert (Hc0 : captures s0 = captures s) by (subst s0; reflexivity).
  assert (Hf0 : fresh s0 = fresh s) by (subst s0; reflexivity).
  assert (Hi0 : immediates s0 = immediates s) by (subst s0; reflexivity).
  clear Es0.
  destruct (exec_start_cpu tags s0) as (Hc1 & Hi1 & Hf1 & _).
  pose proof (start_cpu_running tags s0) as Hon1.
  remember (exec (CallStartCpuProfiling tags) s0) as s1 eqn:Es1. clear Es1.
  rewrite Hc0, Hf0 in Hc1. rewrite Hi0 in Hi1.
  assert (Hl1 : lookup cid (captures s1) = Some l)
    by (rewrite Hc1; now apply lookup_app_some).
  pose proof (settle_when_running s1 cid l p Hl1 Hon1) as H2.
  remember (exec (TimeProfileSettles cid (Fulfilled p)) s1) as s2 eqn:Es2. clear Es2.
  assert (Hi2 : immediates s2 = immediates s1 ++ [l]) by (rewrite H2; reflexivity).
  assert (Hc2 : captures s2 = remove cid (captures s1)) by (rewrite H2; reflexivity).
  split; [exact Hl1|]. split; [exact Hon1|].
  rewrite Hi2, Hc2, Hi1, Hc1. split; [reflexivity|]. split; [|lia].
  assert (Hne : Nat.eqb cid (S (fresh s)) = false).
  { apply Nat.eqb_neq. apply lookup_in in Hflight.
    rewrite Forall_forall in Hids. specialize (Hids _ Hflight). simpl in Hids. lia. }
  rewrite lookup_remove_other by exact Hne.
  apply lookup_app_fresh.
  eapply Forall_impl; [|exact Hids]. simpl. intros x Hx. lia.
Qed.

Lemma X12_stop_then_start_keeps_old_loop_witness :
  lookup 1 (captures (run [CallStartCpuProfiling []] initial)) = Some 0
  /\ immediates
       (exec (TimeProfileSettles 1 (Fulfilled fake_profile))
          (exec (CallStartCpuProfiling [])
             (exec CallStopCpuProfiling (run [CallStartCpuProfiling []] initial))))
     = immediates (run [CallStartCpuProfiling []] initial) ++ [0].
Proof.
  assert (H1 : lookup 1 (captures (run [CallStartCpuProfiling []] initial)) = Some 0)
    by (vm_compute; reflexivity).
  split; [exact H1|].
  exact (proj1 (proj2 (proj2
    (X12_stop_then_start_keeps_old_loop [CallStartCpuProfiling []] 1 0 []
       fake_profile H1)))).
Defined.

(** ** Tags in the URL are not escaped *)




(** ** The source mapper of the configuration *)

Lemma mapper_for_config (s : State) (mid : nat) (m : SourceMapper) :
  lookup mid (mappers s) = Some ForConfig ->
  exec (SourceMapperSettles mid (Fulfilled m)) s
  = set_config (with_sm (Some m)) (set_mappers (remove mid) s).
Proof.
  intros Hl. unfold_module. cbn. rewrite Hl. same_state.
Qed.

Lemma mapper_other (s : State) (mid : nat) (r : Settled SourceMapper string) :
  (forall m, r = Fulfilled m -> lookup mid (mappers s) <> Some ForConfig) ->
  sm (config (exec (SourceMapperSettles mid r) s)) = sm (config s).
Proof.
  intros Hr. unfold_module. unfold heapSamplerStarted. cbn.
  destruct (lookup mid (mappers s)) as [[|]|] eqn:Hl; cbn;
    destruct r; cbn; try reflexivity;
    try (destruct (existsb is_heap_start (trace s)); reflexivity).
  exfalso. now apply (Hr a).
Qed.

(** X14: the source mappers that [init] asks for are stored as they
    arrive: of two that are pending, the one that resolves last is the one
    the configuration holds afterwards, whichever [init] call asked for it;
    a rejected one, and the mapper of the heap session, leave the
    configuration alone; and a round that begins passes to the profiler the
    mapper the configuration holds at that moment. *)
Theorem X14_last_resolved_mapper_wins
  (s : State) (m1 m2 : nat) (sm1 sm2 : SourceMapper)
  (H1 : lookup m1 (mappers s) = Some ForConfig)
  (H2 : lookup m2 (mappers s) = Some ForConfig)
  (Hne : m1 <> m2) :
  sm (config (exec (SourceMapperSettles m2 (Fulfilled sm2))
                (exec (SourceMapperSettles m1 (Fulfilled sm1)) s))) = Some sm2
  /\ sm (config (exec (SourceMapperSettles m1 (Fulfilled sm1))
                   (exec (SourceMapperSettles m2 (Fulfilled sm2)) s))) = Some sm1
  /\ (forall reason,
        sm (config (exec (SourceMapperSettles m1 (Rejected reason)) s)) = sm (config s))
  /\ (forall mh r, lookup mh (mappers s) = Some ForHeap ->
        sm (config (exec (SourceMapperSettles mh r) s)) = sm (config s))
  /\ (forall tags,
        In (TimeProfile (fresh s) (S (fresh s))
              {| lineNumbers := true; sourceMapper := sm (config s);
                 durationMillis := INTERVAL; intervalMicros := 10000 |})
           (trace (exec (CallStartCpuProfiling tags) s))).
Proof.
  assert (Hafter : forall a b ma mb,
            lookup a (mappers s) = Some ForConfig ->
            lookup b (mappers s) = Some ForConfig -> a <> b ->
            sm (config (exec (SourceMapperSettles b (Fulfilled mb))
                          (exec (SourceMapperSettles a (Fulfilled ma)) s))) = Some mb).
  { intros a b ma mb Ha Hb Hab.
    rewrite (mapper_for_config s a ma Ha).
    rewrite mapper_for_config; [reflexivity|].
    cbn [mappers set_config set_mappers].
    rewrite lookup_remove_other; [exact Hb|]. now apply Nat.eqb_neq. }
  split; [now apply Hafter|]. split; [apply Hafter; auto|].
  split; [|split].
  - intros reason. apply mapper_other. discriminate.
  - intros mh r Hh. apply mapper_other. intros m _. rewrite Hh. discriminate.
  - intros tags. destruct (exec_start_cpu tags s) as (_ & _ & _ & Ht).
    rewrite Ht. apply in_or_app. right. apply in_or_app. right. now left.
Qed.

Lemma X14_last_resolved_mapper_wins_witness :
  let s := run [ CallInit (Given {| server := None; name := "a";
                                     sourceMapPath := Some ["old"];
                                     autoStart := false; sm := None; tags := [] |});
                 CallInit (Given {| server := None; name := "a";
                                     sourceMapPath := Some ["new"];
                                     autoStart := false; sm := None; tags := [] |}) ]
             initial in
  lookup 1 (mappers s) = Some ForConfig
  /\ lookup 0 (mappers s) = Some ForConfig
  /\ 1 <> 0
  /\ sm (config (exec (SourceMapperSettles 0 (Fulfilled (SourceMapperObject 0)))
                   (exec (SourceMapperSettles 1 (Fulfilled (SourceMapperObject 1))) s)))
     = Some (SourceMapperObject 0).
Proof.
  intros s.
  assert (H1 : lookup 1 (mappers s) = Some ForConfig) by (vm_compute; reflexivity).
  assert (H0 : lookup 0 (mappers s) = Some ForConfig) by (vm_compute; reflexivity).
  assert (Hne : 1 <> 0) by discriminate.
  split; [exact H1|]. split; [exact H0|]. split; [exact Hne|].
  exact (proj1 (X14_last_resolved_mapper_wins s 1 0 (SourceMapperObject 1)
                  (SourceMapperObject 0) H1 H0 Hne)).
Defined.

(** ** The two sessions side by side *)

(** X19: the CPU loops and the heap session do not touch each other's
    state: starting, stopping or ticking the heap session, and its source
    mapper, leave the captures, the queue and the running flag alone;
    starting or stopping the CPU loops, their captures and their callbacks
    leave the timer handle, the timers and the pending mappers alone.
    Stopping one profiler does not stop the other. *)
Theorem X19_sessions_independent (e : Event) (s : State) :
  (heap_only e = true ->
     captures (exec e s) = captures s
     /\ immediates (exec e s) = immediates s
     /\ isCpuProfilingRunning (exec e s) = isCpuProfilingRunning s)
  /\ (cpu_only e = true ->
        heapProfilingTimer (exec e s) = heapProfilingTimer s
        /\ intervals (exec e s) = intervals s
        /\ mappers (exec e s) = mappers s).
Proof.
  split; intros He; destruct e; simpl in He; try discriminate He;
    run_handler; repeat split.
Qed.

Lemma X19_sessions_independent_witness :
  heap_only CallStopHeapProfiling = true
  /\ isCpuProfilingRunning
       (exec CallStopHeapProfiling (run [CallInit Omitted] initial))
     = isCpuProfilingRunning (run [CallInit Omitted] initial).
Proof.
  split; [reflexivity|].
  exact (proj2 (proj2 (proj1 (X19_sessions_independent CallStopHeapProfiling
                                (run [CallInit Omitted] initial)) eq_refl))).
Defined.

Lemma heap_tick (s : State) (tid : nat) (m : SourceMapper) (p : Profile) :
  lookup tid (intervals s) = Some m ->
  exec (IntervalFires tid p) s
  = set_encodes (fun q => q ++ [(fresh s, (HeapTick, p))])
      (set_trace (fun t => t ++ [ Log ["Collecting heap profile"];
                                  HeapProfile m p;
                                  Log ["Heap profile collected..."];
                                  Encode (fresh s) p ])
         (set_fresh (S (fresh s)) s)).
Proof.
  intros Hl. unfold_module. cbn. rewrite Hl. same_state.
Qed.

(** X20: a tick of the heap timer takes its snapshot with the source
    mapper of the start call that set the timer and hands it to
    [uploadProfile] without waiting for the upload of the tick before: after
    two ticks in a row two uploads are under way, and the timer is still
    set. *)
Theorem X20_heap_ticks_do_not_wait
  (s : State) (tid : nat) (m : SourceMapper) (p1 p2 : Profile)
  (Hactive : lookup tid (intervals s) = Some m) :
  encodes (run [IntervalFires tid p1; IntervalFires tid p2] s)
  = encodes s ++ [(fresh s, (HeapTick, p1)); (S (fresh s), (HeapTick, p2))]
  /\ trace (run [IntervalFires tid p1; IntervalFires tid p2] s)
     = trace s ++ [ Log ["Collecting heap profile"]; HeapProfile m p1;
                    Log ["Heap profile collected..."]; Encode (fresh s) p1;
                    Log ["Collecting heap profile"]; HeapProfile m p2;
                    Log ["Heap profile collected..."]; Encode (S (fresh s)) p2 ]
  /\ intervals (run [IntervalFires tid p1; IntervalFires tid p2] s) = intervals s
  /\ posts (run [IntervalFires tid p1; IntervalFires tid p2] s) = posts s.
Proof.
  rewrite !run_cons. change (run [] ?x) with x.
  pose proof (heap_tick s tid m p1 Hactive) as H1.
  assert (Hactive' : lookup tid (intervals (exec (IntervalFires tid p1) s)) = Some m)
    by (rewrite H1; exact Hactive).
  pose proof (heap_tick _ tid m p2 Hactive') as H2.
  rewrite H2. cbn [encodes trace intervals posts set_encodes set_trace set_fresh].
  rewrite H1. cbn [encodes trace intervals posts fresh set_encodes set_trace set_fresh].
  rewrite <- !app_assoc. repeat split.
Qed.

Lemma X20_heap_ticks_do_not_wait_witness :
  lookup 1 (intervals (run [ CallStartHeapProfiling [];
                             SourceMapperSettles 0 (Fulfilled (SourceMapperObject 0)) ]
                         initial))
  = Some (SourceMapperObject 0)
  /\ List.length
       (encodes (run [IntervalFires 1 fake_profile; IntervalFires 1 fake_profile]
                   (run [ CallStartHeapProfiling [];
                          SourceMapperSettles 0 (Fulfilled (SourceMapperObject 0)) ]
                      initial)))
     = 2.
Proof.
  assert (H : lookup 1 (intervals (run [ CallStartHeapProfiling [];
                             SourceMapperSettles 0 (Fulfilled (SourceMapperObject 0)) ]
                         initial))
              = Some (SourceMapperObject 0)) by (vm_compute; reflexivity).
  split; [exact H|].
  rewrite (proj1 (X20_heap_ticks_do_not_wait _ 1 (SourceMapperObject 0)
                    fake_profile fake_profile H)).
  reflexivity.
Defined.

Lemma start_heap_keeps_cpu (s : State) :
  captures (exec (CallStartHeapProfiling []) s) = captures s
  /\ immediates (exec (CallStartHeapProfiling []) s) = immediates s
  /\ isCpuProfilingRunning (exec (CallStartHeapProfiling []) s)
     = isCpuProfilingRunning s.
Proof. run_handler; repeat split. Qed.

(** X21: [init] with [autoStart] on is [init] with it off followed by
    [startCpuProfiling()] and [startHeapProfiling()], in that order: the
    flag is on afterwards and one more capture is under way.  With
    [autoStart] off, or with a falsy argument, [init] starts nothing: the
    captures, the queue, the flag, the timers and the handle stay as they
    are. *)
Theorem X21_init_autoStart (a : Arg PyroscopeConfig) (s : State) :
  (forall c, truthy_param init_default a = Some c -> autoStart c = true ->
     exec (CallInit a) s
     = exec (CallStartHeapProfiling [])
         (exec (CallStartCpuProfiling [])
            (exec (CallInit (Given (without_autoStart c))) s))
     /\ isCpuProfilingRunning (exec (CallInit a) s) = true
     /\ captures (exec (CallInit a) s) = captures s ++ [(S (fresh (exec (CallInit (Given (without_autoStart c))) s)), fresh (exec (CallInit (Given (without_autoStart c))) s))])
  /\ (starts_cpu (CallInit a) = false ->
        captures (exec (CallInit a) s) = captures s
        /\ immediates (exec (CallInit a) s) = immediates s
        /\ isCpuProfilingRunning (exec (CallInit a) s) = isCpuProfilingRunning s
        /\ intervals (exec (CallInit a) s) = intervals s
        /\ heapProfilingTimer (exec (CallInit a) s) = heapProfilingTimer s
        /\ pending_heap (exec (CallInit a) s) = pending_heap s).
Proof.
  split.
  - intros c Hc Ha. pose proof (init_autoStart a c s Hc Ha) as E.
    split; [exact E|]. rewrite E.
    destruct (start_heap_keeps_cpu
                (exec (CallStartCpuProfiling [])
                   (exec (CallInit (Given (without_autoStart c))) s)))
      as (Hcap & _ & Hrun).
    rewrite Hcap, Hrun.
    destruct (exec_start_cpu [] (exec (CallInit (Given (without_autoStart c))) s))
      as (Hc1 & _).
    rewrite Hc1. split; [reflexivity|].
    destruct (exec_cpu_frame (CallInit (Given (without_autoStart c))) s eq_refl)
      as (Hc0 & _). now rewrite Hc0.
  - intros Hq. simpl in Hq. unfold pending_heap.
    destruct a as [| |c]; simpl in Hq; try discriminate Hq.
    + repeat split.
    + unfold_module; cbn; rewrite Hq; cbn; repeat (break_match; cbn);
        rewrite ?filter_app, ?length_app; cbn; repeat split; lia.
Qed.

Lemma X21_init_autoStart_witness :
  truthy_param init_default Omitted = Some init_default
  /\ autoStart init_default = true
  /\ isCpuProfilingRunning (exec (CallInit Omitted) initial) = true.
Proof.
  split; [reflexivity|]. split; [reflexivity|].
  exact (proj1 (proj2 (proj1 (X21_init_autoStart Omitted initial)
                         init_default eq_refl eq_refl))).
Defined.

(** ** The local file sink *)

Section FileSink.

Import Writer.

Lemma writer_run_cons (c : PyroscopeConfig) (e : Writer.Event) (es : list Writer.Event) (s : Writer.State) :
  Writer.run c (e :: es) s = Writer.run c es (Writer.exec c e s).
Proof. reflexivity. Qed.

Lemma chunk_file_mono (c : PyroscopeConfig) (k k' : N) (f : string * Buffer) :
  (k <= k')%N -> chunk_file c k f -> chunk_file c k' f.
Proof.
  intros Hle (j & Hj & Hf). exists j. split; [lia | exact Hf].
Qed.

Lemma Forall_lt_S {A : Type} (n : nat) (l : list (nat * A)) :
  Forall (fun x => fst x < n) l -> Forall (fun x => fst x < S n) l.
Proof.
  intros H. eapply Forall_impl; [|exact H]. simpl. intros x Hx. lia.
Qed.

Lemma writer_inv_initial (c : PyroscopeConfig) : inv c Writer.initial.
Proof.
  unfold inv. simpl. repeat split; try constructor.
Qed.

Lemma writer_exec_inv (c : PyroscopeConfig) (e : Writer.Event) (s : Writer.State) :
  inv c s -> inv c (Writer.exec c e s).
Proof.
  intros (Hk & Hw & Hn & He & Hp). unfold Writer.exec.
  destruct (crashed s); [now repeat split|].
  destruct e as [p|id r|id err].
  - unfold writeProfileAsync, inv. simpl.
    split; [exact Hk|]. split; [exact Hw|]. split; [exact Hn|]. split.
    + apply Forall_app. split; [now apply Forall_lt_S|].
      constructor; [simpl; lia | constructor].
    + now apply Forall_lt_S.
  - unfold Writer.on_encode.
    destruct (lookup id (encoding s)) eqn:Hl; [|now repeat split].
    destruct r as [buf|reason]; unfold inv; simpl.
    + split; [exact Hk|]. split.
      * apply Forall_app. split; [exact Hw|].
        constructor; [|constructor]. exists (chunk s). split; [lia | reflexivity].
      * rewrite !length_app. simpl. split; [lia|]. split.
        -- apply Forall_lt_S. now apply Forall_remove.
        -- apply Forall_app. split; [now apply Forall_lt_S|].
           constructor; [simpl; lia | constructor].
    + split; [exact Hk|]. split; [exact Hw|]. split; [exact Hn|].
      split; [now apply Forall_remove | exact Hp].
  - unfold Writer.on_write.
    destruct (lookup id (writing s)) eqn:Hl; [|now repeat split].
    pose proof (length_remove_lt id (writing s) _ Hl) as Hlt.
    destruct err as [msg|]; unfold inv; simpl.
    + split; [exact Hk|]. split; [exact Hw|]. split; [lia|].
      split; [exact He | now apply Forall_remove].
    + rewrite length_app. simpl.
      assert (Hsucc : number_succ (chunk s)
                      = N.min (N.of_nat (List.length (console s) + 1)) MAX_EXACT
                      /\ (chunk s <= number_succ (chunk s))%N).
      { unfold number_succ, MAX_EXACT in *.
        destruct (N.ltb_spec (chunk s) 9007199254740992); lia. }
      destruct Hsucc as [Hsucc Hle]. split; [exact Hsucc|]. split.
      * eapply Forall_impl; [|exact Hw]. intros f. now apply chunk_file_mono.
      * split; [lia|]. split; [exact He | now apply Forall_remove].
Qed.

Lemma writer_run_inv (c : PyroscopeConfig) (es : list Writer.Event) (s : Writer.State) :
  inv c s -> inv c (Writer.run c es s).
Proof.
  revert s. induction es as [|e es IH]; intros s Hs; [exact Hs|].
  rewrite writer_run_cons. apply IH. now apply writer_exec_inv.
Qed.

(** X15: in every history of [writeProfileAsync] the counter [chunk] is the
    number of writes that completed (as many as lines [Chunk written]) while
    that is below [2^53], and stays at [2^53] from then on, where the
    increment of a JavaScript number has no effect; every file written to is
    named after a counter value reached so far; and no more writes completed
    or are pending than were begun. *)
Theorem X15_chunk_counts_completed_writes (c : PyroscopeConfig) (es : list Writer.Event) :
  chunk (Writer.run c es Writer.initial)
  = N.min (N.of_nat (List.length (console (Writer.run c es Writer.initial)))) MAX_EXACT
  /\ Forall (chunk_file c (chunk (Writer.run c es Writer.initial)))
       (written (Writer.run c es Writer.initial))
  /\ List.length (console (Writer.run c es Writer.initial))
     + List.length (writing (Writer.run c es Writer.initial))
     <= List.length (written (Writer.run c es Writer.initial))
  /\ Forall (fun line => line = "Chunk written")
       (console (Writer.run c es Writer.initial)).
Proof.
  destruct (writer_run_inv c es Writer.initial (writer_inv_initial c)) as (Hk & Hw & Hn & _).
  split; [exact Hk|]. split; [exact Hw|]. split; [exact Hn|].
  assert (Hall : forall s, Forall (fun line => line = "Chunk written") (console s) ->
            Forall (fun line => line = "Chunk written") (console (Writer.run c es s))).
  { clear. induction es as [|e es IH]; intros s Hs; [exact Hs|].
    rewrite writer_run_cons. apply IH. unfold Writer.exec.
    destruct (crashed s); [exact Hs|].
    destruct e as [p|id r|id err]; simpl.
    - exact Hs.
    - unfold Writer.on_encode. destruct (lookup id (encoding s)); [|exact Hs].
      destruct r; exact Hs.
    - unfold Writer.on_write. destruct (lookup id (writing s)); [|exact Hs].
      destruct err; simpl; [exact Hs|].
      apply Forall_app. split; [exact Hs | repeat constructor]. }
  apply Hall. constructor.
Qed.

(** X16: the file name is made when the encoding is done, and the counter
    moves only when a write completes: two profiles whose encodings finish
    before either write has completed are written to the same file. *)
Theorem X16_overlapping_writes_share_a_file
  (c : PyroscopeConfig) (s : Writer.State) (id1 id2 : nat) (p1 p2 : Profile) (b1 b2 : Buffer)
  (Halive : crashed s = false)
  (H1 : lookup id1 (encoding s) = Some p1)
  (H2 : lookup id2 (encoding s) = Some p2)
  (Hne : id1 <> id2) :
  written (Writer.exec c (Writer.EncodeSettles id2 (Fulfilled b2))
             (Writer.exec c (Writer.EncodeSettles id1 (Fulfilled b1)) s))
  = written s ++ [(path c (chunk s), b1); (path c (chunk s), b2)].
Proof.
  assert (E1 : Writer.exec c (Writer.EncodeSettles id1 (Fulfilled b1)) s
               = {| chunk := chunk s; next := S (next s);
                    encoding := remove id1 (encoding s);
                    writing := writing s ++ [(next s, path c (chunk s))];
                    written := written s ++ [(path c (chunk s), b1)];
                    console := console s;
                    unhandled := unhandled s; crashed := crashed s |}).
  { unfold Writer.exec, Writer.on_encode. now rewrite Halive, H1. }
  rewrite E1. unfold Writer.exec, Writer.on_encode.
  cbn [crashed encoding chunk written next].
  rewrite Halive.
  rewrite lookup_remove_other by (apply Nat.eqb_neq; exact Hne). rewrite H2.
  cbn [written]. now rewrite <- app_assoc.
Qed.

Lemma X16_overlapping_writes_share_a_file_witness :
  let s := Writer.run init_default
             [Writer.Call fake_profile; Writer.Call fake_profile] Writer.initial in
  crashed s = false
  /\ lookup 0 (encoding s) = Some fake_profile
  /\ lookup 1 (encoding s) = Some fake_profile
  /\ 0 <> 1
  /\ map fst (written (Writer.exec init_default (Writer.EncodeSettles 1 (Fulfilled fake_bytes))
                (Writer.exec init_default (Writer.EncodeSettles 0 (Fulfilled fake_bytes)) s)))
     = ["nodejs-0.pb.gz"; "nodejs-0.pb.gz"].
Proof.
  intros s.
  assert (Ha : crashed s = false) by reflexivity.
  assert (H0 : lookup 0 (encoding s) = Some fake_profile) by reflexivity.
  assert (H1 : lookup 1 (encoding s) = Some fake_profile) by reflexivity.
  assert (Hne : 0 <> 1) by discriminate.
  split; [exact Ha|]. split; [exact H0|]. split; [exact H1|]. split; [exact Hne|].
  rewrite (X16_overlapping_writes_share_a_file init_default s 0 1 fake_profile
             fake_profile fake_bytes fake_bytes Ha H0 H1 Hne).
  reflexivity.
Defined.

Lemma append_cancel_l (a x y : string) :
  (a ++ x = a ++ y)%string -> x = y.
Proof.
  induction a as [|ch a IH]; simpl; intros H; [exact H|].
  inversion H. now apply IH.
Qed.

Lemma length_append (a b : string) :
  String.length (a ++ b) = String.length a + String.length b.
Proof. induction a as [|ch a IH]; simpl; [reflexivity | now rewrite IH]. Qed.

Lemma append_cancel_r (x y z : string) :
  (x ++ z = y ++ z)%string -> x = y.
Proof.
  revert y. induction x as [|ch x IH]; intros [|ch' y] H; simpl in H.
  - reflexivity.
  - apply (f_equal String.length) in H. simpl in H. rewrite length_append in H. lia.
  - apply (f_equal String.length) in H. simpl in H. rewrite length_append in H. lia.
  - inversion H. f_equal. now apply IH.
Qed.

Lemma string_of_number_inj (k k' : N) :
  string_of_number k = string_of_number k' -> k = k'.
Proof.
  unfold string_of_number. intros H.
  apply DecimalN.Unsigned.to_uint_inj.
  assert (Hs : Some (N.to_uint k) = Some (N.to_uint k')).
  { rewrite <- (NilEmpty.usu (N.to_uint k)), <- (NilEmpty.usu (N.to_uint k')).
    now rewrite H. }
  now inversion Hs.
Qed.

(** Different counter values give different file names. *)
Lemma path_inj (c : PyroscopeConfig) (k k' : N) :
  path c k = path c k' -> k = k'.
Proof.
  unfold path. intros H.
  apply append_cancel_l in H. apply (append_cancel_l "-") in H.
  apply append_cancel_r in H. now apply string_of_number_inj.
Qed.

Lemma writer_cycle (c : PyroscopeConfig) (s : Writer.State)
  (profile : Profile) (buf : Buffer) :
  inv c s -> crashed s = false ->
  chunk (Writer.run c (cycle s profile buf) s) = number_succ (chunk s)
  /\ written (Writer.run c (cycle s profile buf) s)
     = written s ++ [(path c (chunk s), buf)]
  /\ console (Writer.run c (cycle s profile buf) s) = console s ++ ["Chunk written"]
  /\ crashed (Writer.run c (cycle s profile buf) s) = false.
Proof.
  intros (_ & _ & _ & He & Hp) Halive.
  assert (L1 : lookup (next s) (encoding s ++ [(next s, profile)]) = Some profile)
    by now apply lookup_app_fresh.
  assert (L2 : lookup (S (next s)) (writing s ++ [(S (next s), path c (chunk s))])
               = Some (path c (chunk s)))
    by (apply lookup_app_fresh; now apply Forall_lt_S).
  assert (E1 : Writer.exec c (Writer.Call profile) s = writeProfileAsync profile s)
    by (unfold Writer.exec; now rewrite Halive).
  assert (E2 : Writer.exec c (Writer.EncodeSettles (next s) (Fulfilled buf))
                 (writeProfileAsync profile s)
               = {| chunk := chunk s; next := S (S (next s));
                    encoding := remove (next s) (encoding s ++ [(next s, profile)]);
                    writing := writing s ++ [(S (next s), path c (chunk s))];
                    written := written s ++ [(path c (chunk s), buf)];
                    console := console s;
                    unhandled := unhandled s; crashed := crashed s |}).
  { unfold Writer.exec, Writer.on_encode, writeProfileAsync.
    cbn [crashed encoding next chunk written writing console unhandled].
    now rewrite Halive, L1. }
  assert (E3 : Writer.exec c (Writer.WriteFileDone (S (next s)) None)
                 {| chunk := chunk s; next := S (S (next s));
                    encoding := remove (next s) (encoding s ++ [(next s, profile)]);
                    writing := writing s ++ [(S (next s), path c (chunk s))];
                    written := written s ++ [(path c (chunk s), buf)];
                    console := console s;
                    unhandled := unhandled s; crashed := crashed s |}
               = {| chunk := number_succ (chunk s); next := S (S (next s));
                    encoding := remove (next s) (encoding s ++ [(next s, profile)]);
                    writing := remove (S (next s))
                                 (writing s ++ [(S (next s), path c (chunk s))]);
                    written := written s ++ [(path c (chunk s), buf)];
                    console := console s ++ ["Chunk written"];
                    unhandled := unhandled s; crashed := crashed s |}).
  { unfold Writer.exec, Writer.on_write.
    cbn [crashed encoding next chunk written writing console unhandled].
    now rewrite Halive, L2. }
  unfold cycle. rewrite !writer_run_cons. unfold Writer.run at 1 2 3 4.
  cbn [fold_left]. rewrite E1, E2, E3.
  cbn [chunk written console crashed]. repeat split. exact Halive.
Qed.

(** X17: a profile written from call to completion, with nothing else
    under way in between, goes to the file named after the value the counter
    had.  While the counter is below [2^53] the write increments it once,
    and as file names differ whenever the counter values do, the next such
    write goes to another file; at [2^53] the increment has no effect, the
    counter stays, and the next write goes to the same file. *)
Theorem X17_sequential_writes_distinct_files
  (c : PyroscopeConfig) (es : list Writer.Event) (profile : Profile) (buf : Buffer)
  (Halive : crashed (Writer.run c es Writer.initial) = false) :
  let s := Writer.run c es Writer.initial in
  let s' := Writer.run c (cycle s profile buf) s in
  written s' = written s ++ [(path c (chunk s), buf)]
  /\ console s' = console s ++ ["Chunk written"]
  /\ (chunk s <= MAX_EXACT)%N
  /\ ((chunk s < MAX_EXACT)%N ->
        chunk s' = (chunk s + 1)%N /\ path c (chunk s') <> path c (chunk s))
  /\ (chunk s = MAX_EXACT -> chunk s' = chunk s)
  /\ (forall k k', path c k = path c k' -> k = k').
Proof.
  intros s s'.
  assert (Hinv : inv c s) by (apply writer_run_inv, writer_inv_initial).
  destruct (writer_cycle c s profile buf Hinv Halive) as (Hk & Hw & Hc & _).
  fold s' in Hk, Hw, Hc.
  destruct Hinv as (Hmin & _).
  split; [exact Hw|]. split; [exact Hc|]. split; [lia|]. split; [|split].
  - intros Hlt.
    assert (Hk' : chunk s' = (chunk s + 1)%N).
    { rewrite Hk. unfold number_succ.
      destruct (N.ltb_spec (chunk s) MAX_EXACT); [reflexivity | lia]. }
    split; [exact Hk'|]. rewrite Hk'. intros H. apply path_inj in H. lia.
  - intros Hmax. rewrite Hk. unfold number_succ.
    destruct (N.ltb_spec (chunk s) MAX_EXACT); [lia | reflexivity].
  - apply path_inj.
Qed.

Lemma X17_sequential_writes_distinct_files_witness :
  crashed (Writer.run init_default [Writer.Call fake_profile] Writer.initial) = false
  /\ (chunk (Writer.run init_default [Writer.Call fake_profile] Writer.initial)
      < MAX_EXACT)%N
  /\ chunk (Writer.run init_default
              (cycle (Writer.run init_default [Writer.Call fake_profile] Writer.initial)
                 fake_profile fake_bytes)
              (Writer.run init_default [Writer.Call fake_profile] Writer.initial))
     = 1%N.
Proof.
  assert (H : crashed (Writer.run init_default [Writer.Call fake_profile] Writer.initial)
              = false) by reflexivity.
  assert (Hlt : (chunk (Writer.run init_default [Writer.Call fake_profile] Writer.initial)
                 < MAX_EXACT)%N) by reflexivity.
  split; [exact H|]. split; [exact Hlt|].
  exact (proj1 (proj1 (proj2 (proj2 (proj2
    (X17_sequential_writes_distinct_files init_default
       [Writer.Call fake_profile] fake_profile fake_bytes H)))) Hlt)).
Defined.

(** X18: the two failures of the sink.  A write that fails throws from the
    callback: the counter does not move, no line is printed, and the process
    takes no further turn.  An encoding that fails writes nothing: the
    rejection is left unhandled and the counter does not move. *)
Theorem X18_sink_failures
  (c : PyroscopeConfig) (s : Writer.State) (Halive : crashed s = false) :
  (forall id file msg, lookup id (writing s) = Some file ->
     let s' := Writer.exec c (Writer.WriteFileDone id (Some msg)) s in
     crashed s' = true
     /\ chunk s' = chunk s
     /\ console s' = console s
     /\ forall es, Writer.run c es s' = s')
  /\ (forall id profile reason, lookup id (encoding s) = Some profile ->
        let s' := Writer.exec c (Writer.EncodeSettles id (Rejected reason)) s in
        written s' = written s
        /\ chunk s' = chunk s
        /\ unhandled s' = S (unhandled s)
        /\ crashed s' = false).
Proof.
  split.
  - intros id file msg Hl. cbv zeta.
    assert (E : Writer.exec c (Writer.WriteFileDone id (Some msg)) s
                = {| chunk := chunk s; next := next s; encoding := encoding s;
                     writing := remove id (writing s);
                     written := written s; console := console s;
                     unhandled := unhandled s; crashed := true |}).
    { unfold Writer.exec, Writer.on_write. now rewrite Halive, Hl. }
    rewrite E. cbn [crashed chunk console].
    split; [reflexivity|]. split; [reflexivity|]. split; [reflexivity|].
    intros es. induction es as [|e es IH]; [reflexivity|].
    rewrite writer_run_cons. unfold Writer.exec at 1. cbn [crashed]. exact IH.
  - intros id profile reason Hl. cbv zeta.
    unfold Writer.exec. rewrite Halive. unfold Writer.on_encode. rewrite Hl.
    cbn. repeat split. exact Halive.
Qed.

Lemma X18_sink_failures_witness :
  crashed Writer.initial = false
  /\ written (Writer.exec init_default (Writer.EncodeSettles 0 (Rejected "bad"))
                (Writer.exec init_default (Writer.Call fake_profile) Writer.initial))
     = [].
Proof.
  split; [reflexivity|].
  exact (proj1 (proj2 (X18_sink_failures init_default
                         (Writer.exec init_default (Writer.Call fake_profile) Writer.initial)
                         eq_refl) 0 fake_profile "bad" eq_refl)).
Defined.

End FileSink.
